(** * pmb.chroot.apk: package installation inside a chroot

    A shallow embedding of [pmb/chroot/apk.py] (pmbootstrap) and the
    properties of its installation pipeline: the repository list
    synchronizer, the version gate, the install necessity evaluator, the
    local path resolver and the install planner.

    The Python functions run against the file system, the session cache and
    a number of collaborators of the other pmbootstrap modules.  They are
    embedded as computations of a state-and-exception monad over an explicit
    state; every collaborator is a field of the record [Host], so every
    theorem holds for all behaviours of the collaborators. *)

From Stdlib Require Import ZArith Ascii.
From Stdlib Require QArith.
From stdpp Require Import gmap strings list.

(** ** Python string primitives *)

Module Py.

Definition newline : ascii := "010"%char.
Definition squote : ascii := "039"%char.
Definition dquote : ascii := "034"%char.

Definition str (c : ascii) : string := String c EmptyString.

(** [s.startswith(p)] *)
Fixpoint startswith (s p : string) {struct p} : bool :=
  match p with
  | EmptyString => true
  | String a p' =>
      match s with
      | EmptyString => false
      | String b s' => Ascii.eqb b a && startswith s' p'
      end
  end.

(** [s[1:]] *)
Definition tail (s : string) : string :=
  match s with
  | EmptyString => EmptyString
  | String _ s' => s'
  end.

(** [s[:-1]] *)
Fixpoint drop_last (s : string) : string :=
  match s with
  | EmptyString => EmptyString
  | String c s' =>
      match s' with
      | EmptyString => EmptyString
      | String _ _ => String c (drop_last s')
      end
  end.

(** [s.lstrip(c)] for a one-character argument *)
Fixpoint lstrip (c : ascii) (s : string) : string :=
  match s with
  | EmptyString => EmptyString
  | String d s' => if Ascii.eqb d c then lstrip c s' else s
  end.

(** [s.rstrip(c)] for a one-character argument *)
Definition rstrip (c : ascii) (s : string) : string :=
  String.rev (lstrip c (String.rev s)).

(** [s.replace(c, r)] for a one-character pattern *)
Fixpoint replace (c : ascii) (r : string) (s : string) : string :=
  match s with
  | EmptyString => EmptyString
  | String d s' =>
      if Ascii.eqb d c then r +:+ replace c r s' else String d (replace c r s')
  end.

Fixpoint forallb_str (p : ascii → bool) (s : string) : bool :=
  match s with
  | EmptyString => true
  | String c s' => p c && forallb_str p s'
  end.

(** The lines a text file yields when it is iterated over: every line
    keeps its terminating newline, and the last line has none when the
    text does not end with one. *)
Fixpoint readlines (text : string) : list string :=
  match text with
  | EmptyString => []
  | String c rest =>
      if Ascii.eqb c newline then str newline :: readlines rest
      else match readlines rest with
           | [] => [str c]
           | l :: ls => String c l :: ls
           end
  end.

(** [shlex.quote]: a string of safe characters is left as it is, any
    other one is wrapped in single quotes. *)
Definition safe_char (c : ascii) : bool :=
  let n := nat_of_ascii c in
  ((48 <=? n) && (n <=? 57)) || ((65 <=? n) && (n <=? 90))
  || ((97 <=? n) && (n <=? 122))
  || bool_decide (c ∈ ["_"; "@"; "%"; "+"; "="; ":"; ","; "."; "/"; "-"]%char).

Definition shlex_quote (s : string) : string :=
  match s with
  | EmptyString => str squote +:+ str squote
  | String _ _ =>
      if forallb_str safe_char s then s
      else str squote
           +:+ replace squote
                 (str squote +:+ str dquote +:+ str squote
                  +:+ str dquote +:+ str squote) s
           +:+ str squote
  end.

(** [os.path.dirname] of [posixpath]: everything before the last slash,
    without the slashes that end it unless it has nothing else. *)
Fixpoint after_last_slash_rev (r : string) : string :=
  match r with
  | EmptyString => EmptyString
  | String c r' => if Ascii.eqb c "/" then r else after_last_slash_rev r'
  end.

Definition dirname (p : string) : string :=
  let head := String.rev (after_last_slash_rev (String.rev p)) in
  if forallb_str (Ascii.eqb "/") head then head else rstrip "/" head.

(** [" ".join(l)] and the like *)
Fixpoint join (sep : string) (l : list string) : string :=
  match l with
  | [] => EmptyString
  | [x] => x
  | x :: l' => x +:+ sep +:+ join sep l'
  end.

End Py.

(** ** Data model *)

(** The attributes of [args] that the module reads. *)
Record Args := {
  work : string;
  action : string;
  build_pkgs_on_install : bool;
  offline : bool;
}.

(** One record of an APKINDEX or of the installed database, as
    [pmb.parse.apkindex] returns it. *)
Record Entry := {
  pkgname : string;
  version : string;
  depends : list string;
  provides : list string;
  timestamp : string;
}.

Inductive exn :=
| RuntimeError (msg : string)
| ValueError (msg : string)
| KeyError (key : string)
| Failure (msg : string).

Inductive level := Debug | Info | Warning.

(** The calls the module makes that act on the world, in the order it
    makes them. *)
Inductive Event :=
| EvLog (lvl : level) (msg : string)
| EvRunRoot (cmd : list string)
| EvCheckOutdated (version_installed action_msg : string)
| EvBuild (package arch : string) (force : bool)
| EvChrootInit (suffix : string)
| EvApkProgress (cmd : list string) (suffix : string)
| EvChrootRoot (cmd : list string) (suffix : string).

Global Instance exn_eq_dec : EqDecision exn.
Proof. solve_decision. Defined.
Global Instance level_eq_dec : EqDecision level.
Proof. solve_decision. Defined.
Global Instance Event_eq_dec : EqDecision Event.
Proof. solve_decision. Defined.

(** [pmb.helpers.other.cache], the two keys of this module. *)
Record Session := {
  apk_repository_list_updated : list string;
  apk_min_version_checked : list string;
}.

(** The collaborators.  [Ext] is the world outside the module: the file
    system, the package indexes and the aports tree.  [read_text] is the text
    of a file as [open(path)] yields it, with the line ends translated to
    newlines.  [run_root] runs a subprocess, so it acts on [Ext] alone; the
    collaborators that run pmbootstrap code may also write the session cache.
    A collaborator that raises returns [inl], and [float] returns [None]
    where Python raises. *)
Record Host := {
  Ext : Type;
  (* os.path.exists and the text of a file *)
  path_exists : Ext → string → bool;
  read_text : Ext → string → string;
  (* float() and > on floats *)
  Float : Type;
  float : string → option Float;
  float_gt : Float → Float → bool;
  (* pmb.helpers.run.root *)
  run_root : Ext → list string → exn + Ext;
  (* pmb.helpers.repo.urls *)
  repo_urls : Args → list string;
  (* pmb.helpers.apk.check_outdated *)
  check_outdated : string → string → option exn;
  (* pmb.build.package *)
  build_package : Session → Ext → string → string → bool → exn + Session * Ext;
  (* pmb.parse.apkindex.package with must_exist=False *)
  apkindex_package : Ext → string → string → option Entry;
  (* pmb.parse.apkindex.parse *)
  apkindex_parse : Ext → string → gmap string Entry;
  (* pmb.parse.version.compare *)
  version_compare : string → string → Z;
  (* pmb.helpers.pmaports.find with must_exist=False *)
  pmaports_find : Ext → string → option string;
  (* pmb.chroot.init *)
  chroot_init : Session → Ext → string → exn + Session * Ext;
  (* pmb.parse.arch.from_chroot_suffix *)
  from_chroot_suffix : Args → string → exn + string;
  (* pmb.parse.depends.recurse *)
  depends_recurse : Ext → list string → string → exn + list string;
  (* pmb.helpers.apk.apk_with_progress and pmb.chroot.root *)
  apk_with_progress : Session → Ext → list string → string → exn + Session * Ext;
  chroot_root : Session → Ext → list string → string → exn + Session * Ext;
}.

(** ** The monad: state, exceptions and fuel *)

Record St (E : Type) := mkSt {
  session : Session;
  ext : E;
  trace : list Event;
}.
Arguments mkSt {E}.
Arguments session {E}.
Arguments ext {E}.
Arguments trace {E}.

Inductive res (A : Type) :=
| Val (a : A)
| Exn (e : exn)
| NoFuel.
Arguments Val {A}.
Arguments Exn {A}.
Arguments NoFuel {A}.

Definition M (E A : Type) : Type := St E → res A * St E.

Global Instance M_ret E : MRet (M E) := λ A a s, (Val a, s).
Global Instance M_bind E : MBind (M E) := λ A B f m s,
  match m s with
  | (Val a, s') => f a s'
  | (Exn e, s') => (Exn e, s')
  | (NoFuel, s') => (NoFuel, s')
  end.

Section Ops.
Context {E : Type}.

Definition raise {A} (e : exn) : M E A := λ s, (Exn e, s).
Definition out_of_fuel {A} : M E A := λ s, (NoFuel, s).
Definition get_ext : M E E := λ s, (Val (ext s), s).
Definition get_session : M E Session := λ s, (Val (session s), s).
Definition put_session (c : Session) : M E unit :=
  λ s, (Val (), mkSt c (ext s) (trace s)).
Definition emit (ev : Event) : M E unit :=
  λ s, (Val (), mkSt (session s) (ext s) (trace s ++ [ev])).
Definition logging (lvl : level) (msg : string) : M E unit := emit (EvLog lvl msg).

(** A call of a collaborator that acts on [Ext]. *)
Definition call_ext (ev : Event) (f : E → exn + E) : M E unit :=
  λ s, let tr := trace s ++ [ev] in
       match f (ext s) with
       | inl e => (Exn e, mkSt (session s) (ext s) tr)
       | inr x => (Val (), mkSt (session s) x tr)
       end.

(** A call of a collaborator that acts on the session cache and [Ext]. *)
Definition call_world (ev : Event) (f : Session → E → exn + Session * E) : M E unit :=
  λ s, let tr := trace s ++ [ev] in
       match f (session s) (ext s) with
       | inl e => (Exn e, mkSt (session s) (ext s) tr)
       | inr (c, x) => (Val (), mkSt c x tr)
       end.

(** A collaborator that only reads. *)
Definition from_sum {A} (r : exn + A) : M E A :=
  match r with
  | inl e => raise e
  | inr a => mret a
  end.

(** [for x in l: f(x)] *)
Fixpoint for_each {A} (l : list A) (f : A → M E unit) : M E unit :=
  match l with
  | [] => mret ()
  | x :: l' => f x ;; for_each l' f
  end.

End Ops.

(** ** The functions of pmb/chroot/apk.py *)

Section Apk.
Context (h : Host).

Abbreviation E := (Ext h).

(** Truth value of an optional string ([None] and the empty string are
    false) and of what [install_is_necessary] returns ([None] stands for
    Python's [None]). *)
Definition truthy_str (o : option string) : bool :=
  match o with
  | Some (String _ _) => true
  | _ => false
  end.

Definition truthy (o : option bool) : bool := default false o.

Definition os_path_exists (path : string) : M E bool :=
  x ← get_ext; mret (path_exists h x path).

Definition open_lines (path : string) : M E (list string) :=
  x ← get_ext; mret (Py.readlines (read_text h x path)).

Definition helpers_run_root (cmd : list string) : M E unit :=
  call_ext (EvRunRoot cmd) (λ x, run_root h x cmd).

Definition build_package_call (package arch : string) (force : bool) : M E unit :=
  call_world (EvBuild package arch force)
    (λ c x, build_package h c x package arch force).

Definition repositories_path (args : Args) (suffix : string) : string :=
  work args +:+ "/chroot_" +:+ suffix +:+ "/etc/apk/repositories".

Definition echo_command (line path : string) : list string :=
  ["sh"; "-c"; "echo " +:+ Py.shlex_quote line +:+ " >> " +:+ path].

Fixpoint update_repository_list (fuel : nat) (args : Args) (suffix : string)
    (check : bool) : M E unit :=
  match fuel with
  | O => out_of_fuel
  | S fuel' =>
      (* Skip if we already did this *)
      cache ← get_session;
      if bool_decide (suffix ∈ apk_repository_list_updated cache) then mret ()
      else
        (* Read old entries or create folder structure *)
        let path := repositories_path args suffix in
        found ← os_path_exists path;
        lines_old ← (if found : bool
                     then lines ← open_lines path; mret (Py.drop_last <$> lines)
                     else helpers_run_root ["mkdir"; "-p"; Py.dirname path] ;;
                          mret []);
        (* Up to date: Save cache, return *)
        let lines_new := repo_urls h args in
        if bool_decide (lines_old = lines_new) then
          cache ← get_session;
          put_session
            {| apk_repository_list_updated :=
                 apk_repository_list_updated cache ++ [suffix];
               apk_min_version_checked := apk_min_version_checked cache |}
        else if check then
          (* Check phase: raise error when still outdated *)
          raise (RuntimeError ("Failed to update: " +:+ path))
        else
          (* Update the file *)
          logging Debug ("(" +:+ suffix +:+ ") update /etc/apk/repositories") ;;
          found ← os_path_exists path;
          (if found : bool then helpers_run_root ["rm"; path] else mret ()) ;;
          for_each lines_new (λ line, helpers_run_root (echo_command line path)) ;;
          update_repository_list fuel' args suffix true
  end.

Definition installed (args : Args) (suffix : string) : M E (gmap string Entry) :=
  let path := work args +:+ "/chroot_" +:+ suffix +:+ "/lib/apk/db/installed" in
  x ← get_ext; mret (apkindex_parse h x path).

Definition check_min_version (args : Args) (suffix : string) : M E unit :=
  (* Skip if we already did this *)
  cache ← get_session;
  if bool_decide (suffix ∈ apk_min_version_checked cache) then mret ()
  else
    (* Skip if apk is not installed yet *)
    found ← os_path_exists (work args +:+ "/chroot_" +:+ suffix +:+ "/sbin/apk");
    if negb found then
      logging Debug ("NOTE: Skipped apk version check for chroot '" +:+ suffix
                     +:+ "', because it is not installed yet!")
    else
      (* Compare *)
      db ← installed args suffix;
      match db !! "apk-tools" with
      | None => raise (KeyError "apk-tools")
      | Some data =>
          let action_msg := "Delete your http cache and zap all chroots, then try again: 'pmbootstrap zap -hc'" in
          emit (EvCheckOutdated (version data) action_msg) ;;
          match check_outdated h (version data) action_msg with
          | Some e => raise e
          | None =>
              (* Mark this suffix as checked *)
              cache ← get_session;
              put_session
                {| apk_repository_list_updated := apk_repository_list_updated cache;
                   apk_min_version_checked :=
                     apk_min_version_checked cache ++ [suffix] |}
          end
      end.

Definition py_float (s : string) : M E (Float h) :=
  match float h s with
  | Some x => mret x
  | None => raise (ValueError ("could not convert string to float: '" +:+ s +:+ "'"))
  end.

Definition build_disabled (args : Args) : bool :=
  bool_decide (action args = "install") && negb (build_pkgs_on_install args).

Definition msg_no_binary (package arch : string) : string :=
  package +:+ ": no binary package found for " +:+ arch
  +:+ ", and compiling packages during 'pmbootstrap install' has been disabled."
  +:+ " Consider changing this option in 'pmbootstrap init'.".

Definition msg_rebuild (package arch : string) : string :=
  "WARNING: Internal error in pmbootstrap, package '" +:+ package +:+ "' for "
  +:+ arch +:+ " has not been built yet, but it should have been."
  +:+ " Rebuilding it with force. Please  report this, if there is no ticket"
  +:+ " about this yet!".

Definition msg_newer (package arch installed_version repo_version : string) : string :=
  "WARNING: " +:+ arch +:+ " package '" +:+ package +:+ "' installed version "
  +:+ installed_version +:+ " is newer, than the version in the repositories: "
  +:+ repo_version +:+ " See also: <https://postmarketos.org/warning-repo>".

Fixpoint install_is_necessary (fuel : nat) (args : Args) (build : bool)
    (arch package : string) (packages_installed : gmap string Entry)
    : M E (option bool) :=
  match fuel with
  | O => out_of_fuel
  | S fuel' =>
      (* For packages to be removed we can do the test immediately *)
      if Py.startswith package "!" then
        mret (Some (bool_decide (Py.tail package ∈ dom packages_installed)))
      else
        (* Build package *)
        (if build && negb (build_disabled args)
         then build_package_call package arch false else mret ()) ;;
        (* No further checks when not installed *)
        match packages_installed !! package with
        | None => mret (Some true)
        | Some data_installed =>
            (* Make sure that we really have a binary package *)
            x ← get_ext;
            match apkindex_package h x package arch with
            | None =>
                if build_disabled args then
                  raise (RuntimeError (msg_no_binary package arch))
                else
                  logging Warning (msg_rebuild package arch) ;;
                  build_package_call package arch true ;;
                  install_is_necessary fuel' args build arch package
                    packages_installed
            | Some data_repo =>
                (* Compare the installed version vs. the version in the repos *)
                let compare :=
                  version_compare h (version data_installed) (version data_repo) in
                if (compare =? 1)%Z then
                  (* a) Installed newer (should not happen normally) *)
                  logging Info (msg_newer package arch (version data_installed)
                                  (version data_repo)) ;;
                  mret (Some false)
                else if (compare =? -1)%Z then
                  (* b) Repo newer *)
                  mret (Some true)
                else if (compare =? 0)%Z then
                  (* c) Same version, look at last modified *)
                  time_installed ← py_float (timestamp data_installed);
                  time_repo ← py_float (timestamp data_repo);
                  mret (Some (float_gt h time_repo time_installed))
                else mret None
            end
        end
  end.

Definition msg_no_index (package : string) : string :=
  package +:+ ": could not find binary package, although it should exist for"
  +:+ " sure at this point in the code. Probably an APKBUILD subpackage parsing"
  +:+ " bug. Related: https://gitlab.com/postmarketOS/build.postmarketos.org/"
  +:+ "issues/61".

Definition apk_path (arch package repo_version : string) : string :=
  "/mnt/pmbootstrap-packages/" +:+ arch +:+ "/" +:+ package +:+ "-"
  +:+ repo_version +:+ ".apk".

(** The loop of [replace_aports_packages_with_path]; [ret] is the list
    built so far. *)
Fixpoint replace_loop (args : Args) (packages : list string) (suffix arch : string)
    (ret : list string) : M E (list string) :=
  match packages with
  | [] => mret ret
  | package :: rest =>
      x ← get_ext;
      if truthy_str (pmaports_find h x package) then
        match apkindex_package h x package arch with
        | None => raise (RuntimeError (msg_no_index package))
        | Some data_repo =>
            let apk_path := apk_path arch package (version data_repo) in
            found ← os_path_exists (work args +:+ "/chroot_" +:+ suffix +:+ apk_path);
            replace_loop args rest suffix arch
              (ret ++ [if found : bool then apk_path else package])
        end
      else replace_loop args rest suffix arch (ret ++ [package])
  end.

Definition replace_aports_packages_with_path (args : Args) (packages : list string)
    (suffix arch : string) : M E (list string) :=
  replace_loop args packages suffix arch [].

(** The loop of [install] that filters the outdated packages. *)
Fixpoint filter_outdated (fuel : nat) (args : Args) (build : bool) (arch : string)
    (packages_installed : gmap string Entry) (packages_with_depends : list string)
    (packages_toadd packages_todel : list string) : M E (list string * list string) :=
  match packages_with_depends with
  | [] => mret (packages_toadd, packages_todel)
  | package :: rest =>
      necessary ← install_is_necessary fuel args build arch package packages_installed;
      if negb (truthy necessary) then
        filter_outdated fuel args build arch packages_installed rest
          packages_toadd packages_todel
      else if Py.startswith package "!" then
        filter_outdated fuel args build arch packages_installed rest
          packages_toadd (packages_todel ++ [Py.lstrip "!" package])
      else
        filter_outdated fuel args build arch packages_installed rest
          (packages_toadd ++ [package]) packages_todel
  end.

(** Sanitize packages: the first token that starts with a dash raises. *)
Fixpoint sanitize (packages : list string) : M E unit :=
  match packages with
  | [] => mret ()
  | package :: rest =>
      if Py.startswith package "-" then
        raise (ValueError ("Invalid package name: " +:+ package))
      else sanitize rest
  end.

Fixpoint install_message (packages_installed : gmap string Entry)
    (packages : list string) (message : string) : string :=
  match packages with
  | [] => message
  | pkgname :: rest =>
      install_message packages_installed rest
        (if bool_decide (pkgname ∈ dom packages_installed) then message
         else message +:+ " " +:+ pkgname)
  end.

Definition is_empty {A} (l : list A) : bool := (length l =? 0).

(** The commands of [install], as lists of apk arguments. *)
Definition compose_commands (packages_without_conflicts packages_toadd
    packages_todel : list string) : list (list string) :=
  let commands := [["add"] ++ packages_without_conflicts] in
  let commands :=
    if negb (is_empty packages_toadd)
       && negb (bool_decide (packages_without_conflicts = packages_toadd))
    then [["add"; "-u"; "--virtual"; ".pmbootstrap"] ++ packages_toadd;
          ["add"] ++ packages_without_conflicts;
          ["del"; ".pmbootstrap"]]
    else commands in
  if negb (is_empty packages_todel)
  then commands ++ [["del"] ++ packages_todel]
  else commands.

(** [for (i, command) in enumerate(commands)], from index [i] on. *)
Fixpoint run_commands (args : Args) (suffix : string) (i : nat)
    (commands : list (list string)) : M E unit :=
  match commands with
  | [] => mret ()
  | command :: rest =>
      let command := if offline args then ["--no-network"] ++ command else command in
      (if (i =? 0)
       then let cmd := ["apk"] ++ command in
            call_world (EvApkProgress cmd suffix)
              (λ c x, apk_with_progress h c x cmd suffix)
       else let cmd := ["apk"; "--no-progress"] ++ command in
            call_world (EvChrootRoot cmd suffix)
              (λ c x, chroot_root h c x cmd suffix)) ;;
      run_commands args suffix (S i) rest
  end.

Definition without_conflicts (packages : list string) : list string :=
  List.filter (λ p, negb (Py.startswith p "!")) packages.

(** [install] up to the partition of the packages: the version gate, the
    chroot, the dependencies and the filter. *)
Definition install_prepare (fuel : nat) (args : Args) (packages : list string)
    (suffix : string) (build : bool)
    : M E (string * gmap string Entry * (list string * list string)) :=
  (* Initialize chroot *)
  check_min_version args suffix ;;
  call_world (EvChrootInit suffix) (λ c x, chroot_init h c x suffix) ;;
  (* Add depends to packages *)
  arch ← from_sum (from_chroot_suffix h args suffix);
  x ← get_ext;
  packages_with_depends ← from_sum (depends_recurse h x packages suffix);
  (* Filter outdated packages (build them if required) *)
  packages_installed ← installed args suffix;
  parts ← filter_outdated fuel args build arch packages_installed
             packages_with_depends [] [];
  mret (arch, packages_installed, parts).

Definition install (fuel : nat) (args : Args) (packages : list string)
    (suffix : string) (build : bool) : M E unit :=
  '(arch, packages_installed, (packages_toadd, packages_todel)) ←
    install_prepare fuel args packages suffix build;
  if is_empty packages_toadd && is_empty packages_todel then mret ()
  else
    (* Sanitize packages *)
    sanitize (packages_toadd ++ packages_todel) ;;
    (* Readable install message without dependencies *)
    logging Info
      (install_message packages_installed packages ("(" +:+ suffix +:+ ") install")) ;;
    (* Local packages *)
    packages_toadd ←
      replace_aports_packages_with_path args packages_toadd suffix arch;
    (* Split off conflicts *)
    let packages_without_conflicts := without_conflicts packages in
    run_commands args suffix 0
      (compose_commands packages_without_conflicts packages_toadd packages_todel).

(** *** The phases of [update_repository_list], named for the statements *)

(** Read old entries or create folder structure. *)
Definition read_old_lines (args : Args) (suffix : string) : M E (list string) :=
  let path := repositories_path args suffix in
  found ← os_path_exists path;
  if found : bool
  then lines ← open_lines path; mret (Py.drop_last <$> lines)
  else helpers_run_root ["mkdir"; "-p"; Py.dirname path] ;; mret [].

(** Update the file. *)
Definition rewrite_file (args : Args) (suffix : string) : M E unit :=
  let path := repositories_path args suffix in
  logging Debug ("(" +:+ suffix +:+ ") update /etc/apk/repositories") ;;
  found ← os_path_exists path;
  (if found : bool then helpers_run_root ["rm"; path] else mret ()) ;;
  for_each (repo_urls h args) (λ line, helpers_run_root (echo_command line path)).

(** The state once [suffix] is marked in the session cache. *)
Definition mark_updated (suffix : string) (s : St E) : St E :=
  {| session :=
       {| apk_repository_list_updated :=
            apk_repository_list_updated (session s) ++ [suffix];
          apk_min_version_checked := apk_min_version_checked (session s) |};
     ext := ext s; trace := trace s |}.

End Apk.

(** ** The vocabulary of the statements *)

(** The optional build that comes before the checks. *)
Definition build_step (h : Host) (args : Args) (build : bool) (arch package : string)
    : M (Ext h) unit :=
  if build && negb (build_disabled args)
  then build_package_call h package arch false else mret ().

(** [grows P m]: whatever [m] does, the trace it leaves is the one it found
    followed by events that satisfy [P]. *)
Definition grows {E A} (P : Event → Prop) (m : M E A) : Prop :=
  ∀ s r s', m s = (r, s') → ∃ evs, trace s' = trace s ++ evs ∧ Forall P evs.

(** [keeps_session m]: [m] leaves the session cache as it is. *)
Definition keeps_session {E A} (m : M E A) : Prop :=
  ∀ s r s', m s = (r, s') → session s' = session s.

(** [halts m]: [m] never runs out of fuel. *)
Definition halts {E A} (m : M E A) : Prop := ∀ s, (m s).1 ≠ NoFuel.

(** The error of the check phase. *)
Definition fail_update (args : Args) (suffix : string) : exn :=
  RuntimeError ("Failed to update: " +:+ repositories_path args suffix).

(** The [mkdir] that reading makes when the file is absent, the [rm] that
    rewriting makes when it is there, and the [echo] of every desired line. *)
Definition mkdir_events (h : Host) (args : Args) (suffix : string) (s : St (Ext h))
    : list Event :=
  let path := repositories_path args suffix in
  if path_exists h (ext s) path then []
  else [EvRunRoot ["mkdir"; "-p"; Py.dirname path]].

Definition rm_events (h : Host) (args : Args) (suffix : string) (s : St (Ext h))
    : list Event :=
  let path := repositories_path args suffix in
  if path_exists h (ext s) path then [EvRunRoot ["rm"; path]] else [].

Definition echo_events (h : Host) (args : Args) (suffix : string) : list Event :=
  (λ line, EvRunRoot (echo_command line (repositories_path args suffix)))
    <$> repo_urls h args.

(** A string without a newline, and the text of a list of lines in which
    every line but the last one ends with a newline. *)
Definition no_newline (u : string) : bool :=
  Py.forallb_str (λ c, negb (Ascii.eqb c Py.newline)) u.

Definition unterminated (lines : list string) : string :=
  Py.join (Py.str Py.newline) lines.

(** The text in which every line ends with a newline. *)
Fixpoint terminated (lines : list string) : string :=
  match lines with
  | [] => EmptyString
  | u :: rest => u +:+ String Py.newline (terminated rest)
  end.

(** The aports lookup recognizes the package. *)
Definition locally_built (h : Host) (x : Ext h) (package : string) : Prop :=
  truthy_str (pmaports_find h x package) = true.

(** The package has no index entry although the aports lookup recognizes
    it. *)
Definition unindexed (h : Host) (arch : string) (x : Ext h) (package : string) : Prop :=
  locally_built h x package ∧ apkindex_package h x package arch = None.

(** What stands in the output for [package]: the path of the artifact when
    the package is locally built and the artifact file exists, the name
    itself otherwise. *)
Definition resolved (h : Host) (args : Args) (suffix arch : string) (x : Ext h)
    (package out : string) : Prop :=
  (locally_built h x package →
   ∃ data_repo,
     apkindex_package h x package arch = Some data_repo
     ∧ out = if path_exists h x (work args +:+ "/chroot_" +:+ suffix
                                 +:+ apk_path arch package (version data_repo))
             then apk_path arch package (version data_repo)
             else package)
  ∧ (¬ locally_built h x package → out = package).

(** The two calls that run apk. *)
Definition is_apk_call (ev : Event) : bool :=
  match ev with
  | EvApkProgress _ _ | EvChrootRoot _ _ => true
  | _ => false
  end.

Definition no_apk (ev : Event) : Prop := is_apk_call ev = false.

(** The commands by their role: the one add command, or the
    three commands of the virtual package in its place, and then the removal
    when there is something to remove. *)
Definition add_plain (requested : list string) : list (list string) :=
  [["add"] ++ requested].

Definition add_virtual (requested resolved : list string) : list (list string) :=
  [["add"; "-u"; "--virtual"; ".pmbootstrap"] ++ resolved;
   ["add"] ++ requested;
   ["del"; ".pmbootstrap"]].

(** *** The version gate and the commands *)

(** The file whose presence tells that apk is installed in the chroot, and
    the installed database as [installed] reads it. *)
Definition apk_binary (args : Args) (suffix : string) : string :=
  work args +:+ "/chroot_" +:+ suffix +:+ "/sbin/apk".

Definition installed_db (h : Host) (args : Args) (suffix : string) (x : Ext h)
    : gmap string Entry :=
  apkindex_parse h x (work args +:+ "/chroot_" +:+ suffix +:+ "/lib/apk/db/installed").

(** The hint that [check_min_version] hands to [check_outdated]. *)
Definition zap_hint : string :=
  "Delete your http cache and zap all chroots, then try again: 'pmbootstrap zap -hc'".

(** The state once [suffix] is marked as checked in the session cache. *)
Definition mark_checked {E} (suffix : string) (s : St E) : St E :=
  {| session :=
       {| apk_repository_list_updated := apk_repository_list_updated (session s);
          apk_min_version_checked := apk_min_version_checked (session s) ++ [suffix] |};
     ext := ext s; trace := trace s |}.

(** The calls that the loop over the commands makes when every one of them
    returns: the first command with the progress bar, the others without. *)
Definition network_flag (args : Args) : list string :=
  if offline args then ["--no-network"] else [].

Definition command_events (args : Args) (suffix : string)
    (commands : list (list string)) : list Event :=
  match commands with
  | [] => []
  | first :: others =>
      EvApkProgress (["apk"] ++ network_flag args ++ first) suffix
      :: ((λ command,
             EvChrootRoot (["apk"; "--no-progress"] ++ network_flag args ++ command) suffix)
            <$> others)
  end.

(** The plain names and the removals of a dependency closure, as the
    filter of [install] keeps them. *)
Definition plain_names (packages : list string) : list string :=
  List.filter (λ p, negb (Py.startswith p "!")) packages.

Definition removal_names (packages : list string) : list string :=
  Py.lstrip "!" <$> List.filter (λ p, Py.startswith p "!") packages.

(** How far the loop over the commands got: to the end when it returns,
    to the command that raised when it raises. *)
Definition reached {A} (r : res A) (k n : nat) : Prop :=
  match r with
  | Val _ => k = n
  | Exn _ => 0 < k ≤ n
  | NoFuel => False
  end.

(** The call of the version check, and the calls of the builder and of
    the log. *)
Definition is_gate_call (ev : Event) : bool :=
  match ev with
  | EvCheckOutdated _ _ => true
  | _ => false
  end.

Definition no_gate (ev : Event) : Prop := is_gate_call ev = false.

(** ** A small host, to run the functions on concrete inputs *)

Module Toy.

(** The world of the small host: the text files by path, the binary
    package index, the aports (with what a build of each produces) and the
    installed database. *)
Record World := {
  files : gmap string string;
  index : gmap string Entry;
  aports : gmap string Entry;
  uptodate : list string;
  db : gmap string Entry;
}.

Definition entry (name ver stamp : string) : Entry :=
  {| pkgname := name; version := ver; depends := []; provides := [];
     timestamp := stamp |}.

(** [s = p + rest] *)
Fixpoint strip_prefix (p s : string) : option string :=
  match p, s with
  | EmptyString, _ => Some s
  | String a p', String b s' => if Ascii.eqb a b then strip_prefix p' s' else None
  | String _ _, EmptyString => None
  end.

(** [s.partition(sep)], when [sep] occurs in [s] *)
Fixpoint split_at (sep s : string) : option (string * string) :=
  match strip_prefix sep s with
  | Some rest => Some (EmptyString, rest)
  | None =>
      match s with
      | EmptyString => None
      | String c s' =>
          match split_at sep s' with
          | Some (l, r) => Some (String c l, r)
          | None => None
          end
      end
  end.

(** The shell, for the three commands of the synchronizer; the word after
    [echo] is taken as it is, which is what the shell makes of a word of
    safe characters. *)
Definition sh (w : World) (cmd : list string) : exn + World :=
  match cmd with
  | ["rm"; path] =>
      inr {| files := delete path (files w); index := index w;
             aports := aports w; uptodate := uptodate w; db := db w |}
  | ["sh"; "-c"; script] =>
      match strip_prefix "echo " script with
      | Some rest =>
          match split_at " >> " rest with
          | Some (word, path) =>
              let old := default EmptyString (files w !! path) in
              inr {| files := <[path := old +:+ word +:+ Py.str Py.newline]> (files w);
                     index := index w; aports := aports w;
                     uptodate := uptodate w; db := db w |}
          | None => inl (Failure script)
          end
      | None => inl (Failure script)
      end
  | _ => inr w
  end.

(** Decimal numbers with an optional fraction, as rationals. *)
Fixpoint digits (s : string) (acc : Z) : option Z :=
  match s with
  | EmptyString => Some acc
  | String c s' =>
      match Ascii.is_nat c with
      | Some d => digits s' (10 * acc + Z.of_nat d)%Z
      | None => None
      end
  end.

Definition decimal (s : string) : option QArith_base.Q :=
  match s with
  | EmptyString => None
  | String _ _ =>
      match split_at "." s with
      | Some (i, f) =>
          n ← digits i 0%Z; m ← digits f 0%Z;
          let scale := Pos.pow 10 (Pos.of_nat (String.length f)) in
          Some (QArith_base.Qmake (n * Z.pos scale + m) scale)
      | None => n ← digits s 0%Z; Some (QArith_base.Qmake n 1)
      end
  end.

Definition gt (a b : QArith_base.Q) : bool :=
  (QArith_base.Qnum b * Z.pos (QArith_base.Qden a)
   <? QArith_base.Qnum a * Z.pos (QArith_base.Qden b))%Z.

(** A build makes the index entry of an aport; it makes nothing for a
    package that has no aport, or that the builder takes for up to date
    when the build is not forced. *)
Definition build (c : Session) (w : World) (package arch : string) (force : bool)
    : exn + Session * World :=
  match aports w !! package with
  | Some e =>
      if negb force && bool_decide (package ∈ uptodate w) then inr (c, w)
      else inr (c, {| files := files w; index := <[package := e]> (index w);
                      aports := aports w; uptodate := uptodate w; db := db w |})
  | None => inr (c, w)
  end.

(** The chroot is there once its shell is. *)
Definition init (c : Session) (w : World) (suffix : string) : exn + Session * World :=
  inr (c, {| files := <["/w/chroot_" +:+ suffix +:+ "/bin/sh" := ""]> (files w);
             index := index w; aports := aports w; uptodate := uptodate w;
             db := db w |}).

Definition host (urls : list string) (closure : list string → list string) : Host := {|
  Ext := World;
  path_exists := λ w path, bool_decide (is_Some (files w !! path));
  read_text := λ w path, default EmptyString (files w !! path);
  Float := QArith_base.Q;
  float := decimal;
  float_gt := gt;
  run_root := sh;
  repo_urls := λ _, urls;
  check_outdated := λ _ _, None;
  build_package := build;
  apkindex_package := λ w package _, index w !! package;
  apkindex_parse := λ w _, db w;
  version_compare := λ a b,
    match String.compare a b with Eq => 0 | Lt => -1 | Gt => 1 end%Z;
  pmaports_find := λ w package,
    if bool_decide (is_Some (aports w !! package))
    then Some ("/pmaports/main/" +:+ package) else None;
  chroot_init := init;
  from_chroot_suffix := λ _ _, inr "x86_64";
  depends_recurse := λ _ packages _, inr (closure packages);
  apk_with_progress := λ c w _ _, inr (c, w);
  chroot_root := λ c w _ _, inr (c, w);
|}.

Definition args : Args :=
  {| work := "/w"; action := "build"; build_pkgs_on_install := true;
     offline := false |}.

Definition start (w : World) : St World :=
  {| session := {| apk_repository_list_updated := [];
                   apk_min_version_checked := [] |};
     ext := w; trace := [] |}.

Definition empty : World :=
  {| files := ∅; index := ∅; aports := ∅; uptodate := []; db := ∅ |}.

End Toy.

(** ** Scenarios on the small host *)

Definition mirrors : list string := ["https://mirror/a"; "https://mirror/b"].

(** Scenarios B and C: [foo] installed at 1.0-r1 with timestamp 100.0 and
    1.0-r1 with timestamp 200.0 in the index; [foo] installed at 1.0-r2 and
    1.0-r1 in the index. *)
Definition world_foo (installed_version installed_stamp : string) : Toy.World :=
  {| Toy.files := ∅;
     Toy.index := {[ "foo" := Toy.entry "foo" "1.0-r1" "200.0" ]};
     Toy.aports := ∅;
     Toy.uptodate := [];
     Toy.db := {[ "foo" := Toy.entry "foo" installed_version installed_stamp ]} |}.

(** [foo] is installed and has no index entry; the builder takes its aport,
    when there is one, for up to date. *)
Definition world_unbuilt (aport : option Entry) : Toy.World :=
  {| Toy.files := ∅;
     Toy.index := ∅;
     Toy.aports := from_option (λ e, {[ "foo" := e ]}) ∅ aport;
     Toy.uptodate := ["foo"];
     Toy.db := {[ "foo" := Toy.entry "foo" "1.0-r1" "100.0" ]} |}.

Definition run_unbuilt (aport : option Entry) (fuel : nat)
    : res (option bool) * St Toy.World :=
  install_is_necessary (Toy.host [] id) fuel Toy.args true "x86_64" "foo"
    (Toy.db (world_unbuilt aport)) (Toy.start (world_unbuilt aport)).

(** Scenario A, and a list that the shell of the small host does not write
    back as it is (it keeps the quotes of a quoted word): no file at first,
    the file is written, and the one verification either passes or raises. *)
Definition sync_run (urls : list string) (fuel : nat) (s : St Toy.World)
    : res unit * St Toy.World :=
  update_repository_list (Toy.host urls id) fuel Toy.args "native" false s.

(** The desired list is one URL; the file holds it with no newline after
    it, or with one more character in place of the newline. *)
Definition world_with_list (text : string) : Toy.World :=
  {| Toy.files := {[ "/w/chroot_native/etc/apk/repositories" := text ]};
     Toy.index := ∅; Toy.aports := ∅; Toy.uptodate := []; Toy.db := ∅ |}.

(** [hello] and [fresh] are locally built and indexed, and only the artifact
    of [hello] is in the chroot; [ghost] is locally built and not indexed;
    [busybox] is not locally built. *)
Definition world_aports : Toy.World :=
  {| Toy.files :=
       {[ "/w/chroot_native/mnt/pmbootstrap-packages/x86_64/hello-1.0-r0.apk" := "" ]};
     Toy.index := {[ "hello" := Toy.entry "hello" "1.0-r0" "100";
                     "fresh" := Toy.entry "fresh" "2.0-r1" "100" ]};
     Toy.aports := {[ "hello" := Toy.entry "hello" "1.0-r0" "100";
                      "fresh" := Toy.entry "fresh" "2.0-r1" "100";
                      "ghost" := Toy.entry "ghost" "0.1-r0" "100" ]};
     Toy.uptodate := [];
     Toy.db := ∅ |}.

Definition resolve_run (packages : list string) : res (list string) * St Toy.World :=
  replace_aports_packages_with_path (Toy.host [] id) Toy.args packages "native"
    "x86_64" (Toy.start world_aports).

(** Scenario D: [b] is installed, [a] is not and has no aport. *)
Definition world_ab : Toy.World :=
  {| Toy.files := ∅; Toy.index := ∅; Toy.aports := ∅; Toy.uptodate := [];
     Toy.db := {[ "b" := Toy.entry "b" "1.0-r0" "100" ]} |}.

Definition install_ab (closure : list string → list string)
    : res unit * St Toy.World :=
  install (Toy.host [] closure) 1 Toy.args ["a"; "!b"] "native" true
    (Toy.start world_ab).

(** apk is installed in the chroot, with or without its entry in the
    installed database. *)
Definition world_apk (with_entry : bool) : Toy.World :=
  {| Toy.files := {[ "/w/chroot_native/sbin/apk" := "" ]};
     Toy.index := ∅; Toy.aports := ∅; Toy.uptodate := [];
     Toy.db := if with_entry
               then {[ "apk-tools" := Toy.entry "apk-tools" "2.12.9-r3" "100" ]}
               else ∅ |}.

Definition gate_run (s : St Toy.World) : res unit * St Toy.World :=
  check_min_version (Toy.host [] id) Toy.args "native" s.

(** [pmbootstrap install] with the builds of packages disabled. *)
Definition args_no_build : Args :=
  {| work := "/w"; action := "install"; build_pkgs_on_install := false;
     offline := true |}.

(** [b] is installed and up to date, [a] and [c] are not installed. *)
Definition world_b_current : Toy.World :=
  {| Toy.files := ∅;
     Toy.index := {[ "b" := Toy.entry "b" "1.0-r0" "100" ]};
     Toy.aports := ∅; Toy.uptodate := [];
     Toy.db := {[ "b" := Toy.entry "b" "1.0-r0" "100" ]} |}.

Definition filter_run (packages : list string)
    : res (list string * list string) * St Toy.World :=
  filter_outdated (Toy.host [] id) 1 Toy.args false "x86_64" (Toy.db world_b_current)
    packages [] [] (Toy.start world_b_current).

(** * Properties *)

(** ** Python string primitives *)

Example readlines_1 :
  Py.readlines ("ab" +:+ Py.str Py.newline +:+ "c") = ["ab" +:+ Py.str Py.newline; "c"].
Proof. reflexivity. Qed.
Example dirname_1 : Py.dirname "/w/chroot_native/etc/apk/repositories" = "/w/chroot_native/etc/apk".
Proof. reflexivity. Qed.
Example quote_1 : Py.shlex_quote "https://mirror/a" = "https://mirror/a".
Proof. vm_compute. reflexivity. Qed.
Example quote_2 : Py.shlex_quote "a b" = "'a b'".
Proof. vm_compute. reflexivity. Qed.

(** ** The monad *)

Section MonadLemmas.
Context {E : Type}.
Implicit Types s : St E.

Lemma bind_val {A B} (m : M E A) (f : A → M E B) s a s' :
  m s = (Val a, s') → (m ≫= f) s = f a s'.
Proof. unfold mbind, M_bind. by intros ->. Qed.

Lemma bind_exn {A B} (m : M E A) (f : A → M E B) s e s' :
  m s = (Exn e, s') → (m ≫= f) s = (Exn e, s').
Proof. unfold mbind, M_bind. by intros ->. Qed.

Lemma bind_nofuel {A B} (m : M E A) (f : A → M E B) s s' :
  m s = (NoFuel, s') → (m ≫= f) s = (NoFuel, s').
Proof. unfold mbind, M_bind. by intros ->. Qed.

(** A computation that returns a value went through both halves of a
    bind. *)
Lemma bind_inv_val {A B} (m : M E A) (f : A → M E B) s b s2 :
  (m ≫= f) s = (Val b, s2) →
  ∃ a s1, m s = (Val a, s1) ∧ f a s1 = (Val b, s2).
Proof.
  unfold mbind, M_bind. destruct (m s) as [[a| |] s1]; [eauto | done | done].
Qed.

End MonadLemmas.

(** Unfolds the operations of the monad in the goal. *)
Ltac munfold :=
  unfold mbind, mret, M_bind, M_ret, raise, out_of_fuel, get_ext, get_session,
    put_session, logging, emit, from_sum in *.

(** ** The install necessity evaluator *)

(** C2: for a removal spec [!name], [install_is_necessary] returns whether
    [name] is a key of the installed snapshot, whatever the build flag and
    the architecture are; the state it returns is the one it was given, so
    no build and no other call has been made. *)
Theorem install_is_necessary_removal (h : Host) (fuel : nat) (args : Args)
    (build : bool) (arch name : string) (packages_installed : gmap string Entry)
    (s : St (Ext h)) :
  install_is_necessary h (S fuel) args build arch ("!" +:+ name) packages_installed s
  = (Val (Some (bool_decide (name ∈ dom packages_installed))), s).
Proof. reflexivity. Qed.

Lemma install_is_necessary_unfold (h : Host) fuel args build arch package
    (packages_installed : gmap string Entry) data_installed (s s1 : St (Ext h)) :
  Py.startswith package "!" = false →
  packages_installed !! package = Some data_installed →
  build_step h args build arch package s = (Val (), s1) →
  install_is_necessary h (S fuel) args build arch package packages_installed s
  = match apkindex_package h (ext s1) package arch with
    | None =>
        if build_disabled args then (Exn (RuntimeError (msg_no_binary package arch)), s1)
        else (logging Warning (msg_rebuild package arch) ;;
              build_package_call h package arch true ;;
              install_is_necessary h fuel args build arch package packages_installed) s1
    | Some data_repo =>
        let compare := version_compare h (version data_installed) (version data_repo) in
        if (compare =? 1)%Z then
          (Val (Some false),
           mkSt (session s1) (ext s1)
             (trace s1 ++ [EvLog Info (msg_newer package arch (version data_installed)
                                         (version data_repo))]))
        else if (compare =? -1)%Z then (Val (Some true), s1)
        else if (compare =? 0)%Z then
          (time_installed ← py_float h (timestamp data_installed);
           time_repo ← py_float h (timestamp data_repo);
           mret (Some (float_gt h time_repo time_installed))) s1
        else (Val None, s1)
    end.
Proof.
  intros Hbang Hin Hbuild. unfold build_step in Hbuild.
  cbn [install_is_necessary]. rewrite Hbang.
  erewrite bind_val by exact Hbuild. rewrite Hin.
  unfold get_ext at 1. unfold mbind at 1, M_bind at 1.
  destruct (apkindex_package h (ext s1) package arch) as [data_repo|].
  - cbv zeta. repeat case_match; reflexivity.
  - by destruct (build_disabled args).
Qed.

(** C1: a package spec without [!] that is installed and has an index
    entry.  When the installed version compares greater ([compare] is 1) the
    result is [False] and the warning is logged; when the repository version
    compares greater ([compare] is -1) the result is [True]; when they compare
    equal the result is whether the timestamp of the repository entry, as a
    float, is greater than the one of the installed entry.  [s1] is the state
    the optional build leaves. *)
Theorem install_is_necessary_compare (h : Host) (fuel : nat) (args : Args)
    (build : bool) (arch package : string) (packages_installed : gmap string Entry)
    (data_installed data_repo : Entry) (s s1 : St (Ext h)) :
  Py.startswith package "!" = false →
  packages_installed !! package = Some data_installed →
  build_step h args build arch package s = (Val (), s1) →
  apkindex_package h (ext s1) package arch = Some data_repo →
  let compare := version_compare h (version data_installed) (version data_repo) in
  let result :=
    install_is_necessary h (S fuel) args build arch package packages_installed s in
  (compare = 1%Z →
   result = (Val (Some false),
             mkSt (session s1) (ext s1)
               (trace s1 ++ [EvLog Info (msg_newer package arch (version data_installed)
                                           (version data_repo))])))
  ∧ (compare = (-1)%Z → result = (Val (Some true), s1))
  ∧ (compare = 0%Z →
     ∀ time_installed time_repo,
       float h (timestamp data_installed) = Some time_installed →
       float h (timestamp data_repo) = Some time_repo →
       result = (Val (Some (float_gt h time_repo time_installed)), s1)).
Proof.
  intros Hbang Hin Hbuild Hrepo compare result. subst result.
  rewrite (install_is_necessary_unfold _ _ _ _ _ _ _ _ _ _ Hbang Hin Hbuild), Hrepo.
  cbv zeta. fold compare. repeat split.
  - by intros ->.
  - by intros ->.
  - intros -> ti tr Hti Htr. cbn. unfold py_float. rewrite Hti, Htr. reflexivity.
Qed.

Lemma install_is_necessary_compare_witness :
  let run w :=
    install_is_necessary (Toy.host [] id) 1 Toy.args true "x86_64" "foo" (Toy.db w)
      (Toy.start w) in
  (run (world_foo "1.0-r1" "100.0")).1 = Val (Some true)
  ∧ (run (world_foo "1.0-r2" "100.0")).1 = Val (Some false)
  ∧ trace (run (world_foo "1.0-r2" "100.0")).2
    = [EvBuild "foo" "x86_64" false;
       EvLog Info (msg_newer "foo" "x86_64" "1.0-r2" "1.0-r1")].
Proof.
  cbv zeta.
  pose (sb w := mkSt (session (Toy.start w)) w [EvBuild "foo" "x86_64" false]).
  pose proof (λ w e H1 H2, install_is_necessary_compare (Toy.host [] id) 0 Toy.args
                true "x86_64" "foo" (Toy.db w) e (Toy.entry "foo" "1.0-r1" "200.0")
                (Toy.start w) (sb w) eq_refl H1 H2) as T.
  split; [|split].
  - destruct (T (world_foo "1.0-r1" "100.0") (Toy.entry "foo" "1.0-r1" "100.0")
                eq_refl eq_refl eq_refl) as (_ & _ & Heq).
    rewrite (Heq eq_refl _ _ eq_refl eq_refl). reflexivity.
  - destruct (T (world_foo "1.0-r2" "100.0") (Toy.entry "foo" "1.0-r2" "100.0")
                eq_refl eq_refl eq_refl) as (Hgt & _).
    rewrite (Hgt eq_refl). reflexivity.
  - vm_compute. reflexivity.
Defined.

(** With no aport the builder returns and makes nothing, so the index entry
    stays absent and the evaluation goes on with any amount of fuel. *)
Lemma install_is_necessary_stuck fuel (s : St Toy.World) :
  ext s = world_unbuilt None →
  (install_is_necessary (Toy.host [] id) fuel Toy.args true "x86_64" "foo"
     (Toy.db (world_unbuilt None)) s).1 = NoFuel.
Proof.
  revert s. induction fuel as [|fuel IH]; intros [c x tr] Hext; [done|].
  cbn in Hext. subst x.
  erewrite install_is_necessary_unfold; [|done|done|reflexivity].
  cbn. apply IH. reflexivity.
Qed.

(** C6, counterexample: [foo] is installed, has no index entry and no build
    produces one.  The evaluation does not end, whatever the fuel, and with
    fuel for three rounds it has forced three rebuilds and raised nothing. *)
Lemma install_is_necessary_retries_unbounded :
  (∀ fuel, (run_unbuilt None fuel).1 = NoFuel)
  ∧ trace (run_unbuilt None 3).2
    = [EvBuild "foo" "x86_64" false;
       EvLog Warning (msg_rebuild "foo" "x86_64"); EvBuild "foo" "x86_64" true;
       EvBuild "foo" "x86_64" false;
       EvLog Warning (msg_rebuild "foo" "x86_64"); EvBuild "foo" "x86_64" true;
       EvBuild "foo" "x86_64" false;
       EvLog Warning (msg_rebuild "foo" "x86_64"); EvBuild "foo" "x86_64" true].
Proof.
  split.
  - intros fuel. by apply install_is_necessary_stuck.
  - vm_compute. reflexivity.
Qed.

(** C6, as the code has it: a package that is installed and has no index
    entry, with building not disabled.  The warning is logged, the rebuild is
    forced, and the evaluation is run again for the same inputs on the state
    the rebuild left, with the fuel that is left: the number of rounds has no
    bound of its own.  A round that finds the index entry (after its own build
    step) ends the evaluation with a result or an exception, and forces no
    further rebuild. *)
Theorem install_is_necessary_forced_rebuild (h : Host) (fuel : nat) (args : Args)
    (build : bool) (arch package : string) (packages_installed : gmap string Entry)
    (data_installed : Entry) (s s1 s2 : St (Ext h)) :
  Py.startswith package "!" = false →
  packages_installed !! package = Some data_installed →
  build_disabled args = false →
  build_step h args build arch package s = (Val (), s1) →
  apkindex_package h (ext s1) package arch = None →
  (logging Warning (msg_rebuild package arch) ;;
   build_package_call h package arch true) s1 = (Val (), s2) →
  trace s2 = trace s1 ++ [EvLog Warning (msg_rebuild package arch);
                          EvBuild package arch true]
  ∧ install_is_necessary h (S fuel) args build arch package packages_installed s
    = install_is_necessary h fuel args build arch package packages_installed s2
  ∧ (∀ s3,
       build_step h args build arch package s2 = (Val (), s3) →
       is_Some (apkindex_package h (ext s3) package arch) →
       ∃ r s4,
         install_is_necessary h (S (S fuel)) args build arch package
           packages_installed s = (r, s4)
         ∧ r ≠ NoFuel
         ∧ (trace s4 = trace s3 ∨ ∃ msg, trace s4 = trace s3 ++ [EvLog Info msg])).
Proof.
  intros Hbang Hin Hdis Hbuild Hnone Hforce.
  assert (Hstep : ∀ n,
    install_is_necessary h (S n) args build arch package packages_installed s
    = install_is_necessary h n args build arch package packages_installed s2).
  { intros n.
    rewrite (install_is_necessary_unfold _ _ _ _ _ _ _ _ _ _ Hbang Hin Hbuild).
    rewrite Hnone, Hdis.
    change (logging Warning (msg_rebuild package arch) ;;
            build_package_call h package arch true ;;
            install_is_necessary h n args build arch package packages_installed)
      with ((logging Warning (msg_rebuild package arch) ;;
             build_package_call h package arch true) ;;
            install_is_necessary h n args build arch package packages_installed).
    by erewrite bind_val by exact Hforce. }
  split; [|split].
  - revert Hforce. unfold logging, emit, build_package_call, call_world, mbind, M_bind.
    cbn. destruct (build_package h _ _ _ _ _) as [e|[c x]]; [done|].
    intros [= <-]. cbn. by rewrite <-(assoc_L (++)).
  - apply Hstep.
  - intros s3 Hbuild3 [data_repo Hrepo]. rewrite Hstep.
    rewrite (install_is_necessary_unfold _ _ _ _ _ _ _ _ _ _ Hbang Hin Hbuild3), Hrepo.
    cbv zeta. unfold py_float. munfold.
    repeat case_match; simplify_eq; eauto 10.
Qed.

(** The round after the forced rebuild finds the entry that the rebuild has
    made: [foo] has an aport, which a forced build builds. *)
Lemma install_is_necessary_forced_rebuild_witness :
  let e := Toy.entry "foo" "1.0-r1" "200.0" in
  (run_unbuilt (Some e) 2).1 = Val (Some true)
  ∧ count_occ Event_eq_dec (trace (run_unbuilt (Some e) 2).2)
      (EvBuild "foo" "x86_64" true) = 1.
Proof.
  cbv zeta.
  pose (e := Toy.entry "foo" "1.0-r1" "200.0").
  pose (w := world_unbuilt (Some e)).
  pose (s1 := mkSt (session (Toy.start w)) w [EvBuild "foo" "x86_64" false]).
  pose (s2 := (build_package_call (Toy.host [] id) "foo" "x86_64" true
                 (mkSt (session s1) w
                    (trace s1 ++ [EvLog Warning (msg_rebuild "foo" "x86_64")]))).2).
  destruct (install_is_necessary_forced_rebuild (Toy.host [] id) 1 Toy.args true
              "x86_64" "foo" (Toy.db w) (Toy.entry "foo" "1.0-r1" "100.0")
              (Toy.start w) s1 s2 eq_refl eq_refl eq_refl eq_refl eq_refl eq_refl)
    as (_ & Hrerun & _).
  split.
  - unfold run_unbuilt. fold e w. rewrite Hrerun. vm_compute. reflexivity.
  - vm_compute. reflexivity.
Defined.

(** ** What a computation adds to the trace *)

Section Grows.
Context {E : Type} (P : Event → Prop).

Lemma grows_pure {A} (m : M E A) :
  (∀ s, ∃ r, m s = (r, s)) → grows P m.
Proof.
  intros Hm s r s' Hrun. destruct (Hm s) as [r' Hr]. rewrite Hr in Hrun.
  simplify_eq. exists []. by rewrite app_nil_r.
Qed.

Lemma grows_ret {A} (a : A) : grows P (mret a : M E A).
Proof. apply grows_pure. eauto. Qed.

Lemma grows_raise {A} e : grows P (raise e : M E A).
Proof. apply grows_pure. eauto. Qed.

Lemma grows_out_of_fuel {A} : grows P (out_of_fuel : M E A).
Proof. apply grows_pure. eauto. Qed.

Lemma grows_get_ext : grows P (get_ext : M E E).
Proof. apply grows_pure. eauto. Qed.

Lemma grows_get_session : grows P (get_session : M E Session).
Proof. apply grows_pure. eauto. Qed.

Lemma grows_from_sum {A} (r : exn + A) : grows P (from_sum r : M E A).
Proof. destruct r; [apply grows_raise | apply grows_ret]. Qed.

Lemma grows_put_session c : grows P (put_session c : M E unit).
Proof. intros s r s' [= <- <-]. exists []. by rewrite app_nil_r. Qed.

Lemma grows_emit ev : P ev → grows P (emit ev : M E unit).
Proof. intros Hev s r s' [= <- <-]. exists [ev]. split; [done | by constructor]. Qed.

Lemma grows_call_ext ev f : P ev → grows P (call_ext ev f : M E unit).
Proof.
  intros Hev s r s'. unfold call_ext.
  destruct (f (ext s)); intros [= <- <-]; exists [ev]; (split; [done | by constructor]).
Qed.

Lemma grows_call_world ev f : P ev → grows P (call_world ev f : M E unit).
Proof.
  intros Hev s r s'. unfold call_world.
  destruct (f (session s) (ext s)) as [e|[c x]]; intros [= <- <-]; exists [ev];
    (split; [done | by constructor]).
Qed.

Lemma grows_bind {A B} (m : M E A) (f : A → M E B) :
  grows P m → (∀ a, grows P (f a)) → grows P (m ≫= f).
Proof.
  intros Hm Hf s r s'. unfold mbind, M_bind.
  destruct (m s) as [[a|e|] s1] eqn:Hrun; destruct (Hm _ _ _ Hrun) as (evs & Htr & Hevs).
  - intros Hrun2. destruct (Hf _ _ _ _ Hrun2) as (evs2 & Htr2 & Hevs2).
    exists (evs ++ evs2). rewrite Htr2, Htr, (assoc_L (++)).
    split; [done | by apply Forall_app].
  - intros [= <- <-]. eauto.
  - intros [= <- <-]. eauto.
Qed.

Lemma grows_for_each {A} (l : list A) (f : A → M E unit) :
  (∀ a, grows P (f a)) → grows P (for_each l f).
Proof.
  intros Hf. induction l as [|a l IH]; cbn [for_each].
  - apply grows_ret.
  - apply grows_bind; [apply Hf | intros _; apply IH].
Qed.

End Grows.

(** Proves [grows] goals over the operations of the monad. *)
Ltac grows_tac :=
  repeat first
    [ apply grows_ret | apply grows_raise | apply grows_out_of_fuel
    | apply grows_get_ext | apply grows_get_session | apply grows_from_sum
    | apply grows_put_session
    | apply grows_emit; try done
    | apply grows_call_ext; try done
    | apply grows_call_world; try done
    | apply grows_bind; [|intros ?]
    | apply grows_for_each; intros ?
    | case_match ].

(** ** The repository list synchronizer *)

Section Sync.
Context (h : Host).
Implicit Types s : St (Ext h).

Lemma update_repository_list_unfold fuel args suffix check s :
  update_repository_list h (S fuel) args suffix check s
  = if bool_decide (suffix ∈ apk_repository_list_updated (session s))
    then (Val (), s)
    else (lines_old ← read_old_lines h args suffix;
          if bool_decide (lines_old = repo_urls h args)
          then (λ s', (Val (), mark_updated h suffix s')) : M (Ext h) unit
          else if check then raise (fail_update args suffix)
          else rewrite_file h args suffix ;;
               update_repository_list h fuel args suffix true) s.
Proof.
  cbn [update_repository_list]. unfold read_old_lines, rewrite_file.
  unfold os_path_exists, open_lines, helpers_run_root, call_ext. munfold. cbn.
  repeat (case_match; simplify_eq; cbn in *; try done).
Qed.

(** Reading and rewriting call [run_root] only, which leaves the session
    cache as it is. *)
Lemma keeps_bind {A B} (m : M (Ext h) A) (f : A → M (Ext h) B) :
  keeps_session m → (∀ a, keeps_session (f a)) → keeps_session (m ≫= f).
Proof.
  intros Hm Hf s r s'. unfold mbind, M_bind.
  destruct (m s) as [[a|e|] s1] eqn:Hrun; rewrite <-(Hm _ _ _ Hrun).
  - apply Hf.
  - by intros [= _ <-].
  - by intros [= _ <-].
Qed.

Lemma keeps_ret {A} (a : A) : keeps_session (mret a : M (Ext h) A).
Proof. by intros s r s' [= _ <-]. Qed.

Lemma keeps_os_path_exists path : keeps_session (os_path_exists h path).
Proof. by intros s r s' [= _ <-]. Qed.

Lemma keeps_open_lines path : keeps_session (open_lines h path).
Proof. by intros s r s' [= _ <-]. Qed.

Lemma keeps_logging lvl msg : keeps_session (logging lvl msg : M (Ext h) unit).
Proof. by intros s r s' [= _ <-]. Qed.

Lemma keeps_run_root cmd : keeps_session (helpers_run_root h cmd).
Proof.
  intros s r s'. unfold helpers_run_root, call_ext.
  destruct (run_root h _ _); by intros [= _ <-].
Qed.

Lemma keeps_for_each {A} (l : list A) (f : A → M (Ext h) unit) :
  (∀ a, keeps_session (f a)) → keeps_session (for_each l f).
Proof.
  intros Hf. induction l as [|a l IH]; cbn [for_each].
  - apply keeps_ret.
  - apply keeps_bind; [apply Hf | intros _; apply IH].
Qed.

Lemma read_old_lines_session args suffix : keeps_session (read_old_lines h args suffix).
Proof.
  unfold read_old_lines.
  apply keeps_bind; [apply keeps_os_path_exists | intros []].
  - apply keeps_bind; [apply keeps_open_lines | intros ?; apply keeps_ret].
  - apply keeps_bind; [apply keeps_run_root | intros ?; apply keeps_ret].
Qed.

Lemma rewrite_file_session args suffix : keeps_session (rewrite_file h args suffix).
Proof.
  unfold rewrite_file.
  apply keeps_bind; [apply keeps_logging | intros _].
  apply keeps_bind; [apply keeps_os_path_exists | intros found].
  apply keeps_bind.
  - destruct found; [apply keeps_run_root | apply keeps_ret].
  - intros _. apply keeps_for_each. intros line. apply keeps_run_root.
Qed.

Lemma read_old_lines_trace args suffix s r s' :
  read_old_lines h args suffix s = (r, s') →
  trace s' = trace s ++ mkdir_events h args suffix s.
Proof.
  unfold read_old_lines, mkdir_events, os_path_exists, open_lines, helpers_run_root,
    call_ext. munfold. cbn.
  destruct (path_exists h _ _); cbn; [intros [= _ <-]; by rewrite app_nil_r|].
  destruct (run_root h _ _); by intros [= _ <-].
Qed.

Lemma run_root_trace cmd s r s' :
  helpers_run_root h cmd s = (r, s') → trace s' = trace s ++ [EvRunRoot cmd].
Proof.
  unfold helpers_run_root, call_ext. destruct (run_root h _ _); by intros [= _ <-].
Qed.

Lemma for_each_run_root_trace {A} (cmd : A → list string) (l : list A) s s' :
  for_each l (λ a, helpers_run_root h (cmd a)) s = (Val (), s') →
  trace s' = trace s ++ ((λ a, EvRunRoot (cmd a)) <$> l).
Proof.
  revert s. induction l as [|a l IH]; intros s; cbn [for_each].
  - intros [= <-]. by rewrite app_nil_r.
  - intros Hrun. apply bind_inv_val in Hrun as ([] & s1 & H1 & Hrest).
    rewrite (IH _ Hrest), (run_root_trace _ _ _ _ H1). cbn. by rewrite <-(assoc_L (++)).
Qed.

Lemma rewrite_file_trace args suffix s s' :
  rewrite_file h args suffix s = (Val (), s') →
  trace s' = trace s
             ++ [EvLog Debug ("(" +:+ suffix +:+ ") update /etc/apk/repositories")]
             ++ rm_events h args suffix s ++ echo_events h args suffix.
Proof.
  unfold rewrite_file, rm_events, echo_events. intros Hrun.
  apply bind_inv_val in Hrun as ([] & s1 & Hlog & Hrun). injection Hlog as <-.
  apply bind_inv_val in Hrun as (found & s2 & Hex & Hrun).
  injection Hex as <- <-. cbn [ext] in Hrun.
  apply bind_inv_val in Hrun as ([] & s3 & Hrm & Hrun).
  rewrite (for_each_run_root_trace _ _ _ _ Hrun).
  destruct (path_exists h _ _).
  - rewrite (run_root_trace _ _ _ _ Hrm). cbn. by rewrite <-!(assoc_L (++)).
  - injection Hrm as <-. cbn. by rewrite <-!(assoc_L (++)).
Qed.

(** Rewriting a file that is there starts with the log line and the
    [rm], whatever comes of the commands. *)
Lemma rewrite_file_starts args suffix s r s' :
  path_exists h (ext s) (repositories_path args suffix) = true →
  rewrite_file h args suffix s = (r, s') →
  ∃ evs, trace s'
         = trace s
           ++ [EvLog Debug ("(" +:+ suffix +:+ ") update /etc/apk/repositories");
               EvRunRoot ["rm"; repositories_path args suffix]]
           ++ evs.
Proof.
  intros Hex. unfold rewrite_file.
  erewrite bind_val by reflexivity. erewrite bind_val by reflexivity.
  cbn [ext]. rewrite Hex.
  match goal with |- mbind _ _ ?s0 = _ → _ =>
    destruct (helpers_run_root h ["rm"; repositories_path args suffix] s0)
      as [[[]|e|] s1] eqn:Hrm;
    pose proof (run_root_trace _ _ _ _ Hrm) as Htr; cbn in Htr
  end.
  - erewrite bind_val by exact Hrm. intros Hrest.
    assert (Hg : grows (λ _, True)
              (for_each (repo_urls h args)
                 (λ line, helpers_run_root h
                            (echo_command line (repositories_path args suffix))))).
    { apply grows_for_each. intros line. by apply grows_call_ext. }
    destruct (Hg _ _ _ Hrest) as (evs & Htr' & _). exists evs.
    by rewrite Htr', Htr, <-!(assoc_L (++)).
  - erewrite bind_exn by exact Hrm. intros [= _ <-]. exists [].
    by rewrite Htr, app_nil_r, <-!(assoc_L (++)).
  - erewrite bind_nofuel by exact Hrm. intros [= _ <-]. exists [].
    by rewrite Htr, app_nil_r, <-!(assoc_L (++)).
Qed.

(** Two rounds of fuel are enough: the call made in the check phase does
    not call again. *)
Lemma halts_bind {A B} (m : M (Ext h) A) (f : A → M (Ext h) B) :
  halts m → (∀ a, halts (f a)) → halts (m ≫= f).
Proof.
  intros Hm Hf s. unfold mbind, M_bind. specialize (Hm s).
  destruct (m s) as [[a|e|] s1]; [apply Hf | done | done].
Qed.

Lemma halts_run_root cmd : halts (helpers_run_root h cmd).
Proof. intros s. unfold helpers_run_root, call_ext. by destruct (run_root h _ _). Qed.

Lemma halts_for_each {A} (l : list A) (f : A → M (Ext h) unit) :
  (∀ a, halts (f a)) → halts (for_each l f).
Proof.
  intros Hf. induction l as [|a l IH]; cbn [for_each]; [done|].
  apply halts_bind; [apply Hf | intros _; apply IH].
Qed.

Lemma halts_read_old_lines args suffix : halts (read_old_lines h args suffix).
Proof.
  unfold read_old_lines. apply halts_bind; [done | intros []].
  - by apply halts_bind.
  - apply halts_bind; [apply halts_run_root | done].
Qed.

Lemma halts_rewrite_file args suffix : halts (rewrite_file h args suffix).
Proof.
  unfold rewrite_file. apply halts_bind; [done | intros _].
  apply halts_bind; [done | intros found]. apply halts_bind.
  - destruct found; [apply halts_run_root | done].
  - intros _. apply halts_for_each. intros line. apply halts_run_root.
Qed.

Lemma update_repository_list_check_halts fuel args suffix :
  halts (update_repository_list h (S fuel) args suffix true).
Proof.
  intros s. rewrite update_repository_list_unfold. case_bool_decide; [done|].
  apply halts_bind; [apply halts_read_old_lines | intros lines_old].
  by case_bool_decide.
Qed.

Lemma update_repository_list_halts fuel args suffix check :
  halts (update_repository_list h (S (S fuel)) args suffix check).
Proof.
  destruct check; [apply update_repository_list_check_halts|].
  intros s. rewrite update_repository_list_unfold. case_bool_decide; [done|].
  apply halts_bind; [apply halts_read_old_lines | intros lines_old].
  case_bool_decide; [done|].
  apply halts_bind; [apply halts_rewrite_file | intros _].
  apply update_repository_list_check_halts.
Qed.

End Sync.

(** C7: the list on disk differs from the desired one and the privileged
    commands return.  The file is rewritten once ([s1] to [s2]) and the lines
    are read and compared once more ([s2] to [s3]): when they equal the
    desired list the suffix is marked and the call returns, otherwise the
    call raises the error that names the file, in the state the second
    reading left.  The trace shows the one rewrite: the optional [rm], one
    [echo] for each desired line, and nothing after the second reading. *)
Theorem update_repository_list_rewrites_once (h : Host) (fuel : nat) (args : Args)
    (suffix : string) (lines_old lines_check : list string) (s s1 s2 s3 : St (Ext h)) :
  suffix ∉ apk_repository_list_updated (session s) →
  read_old_lines h args suffix s = (Val lines_old, s1) →
  lines_old ≠ repo_urls h args →
  rewrite_file h args suffix s1 = (Val (), s2) →
  read_old_lines h args suffix s2 = (Val lines_check, s3) →
  update_repository_list h (S (S fuel)) args suffix false s
  = (if bool_decide (lines_check = repo_urls h args)
     then (Val (), mark_updated h suffix s3)
     else (Exn (RuntimeError ("Failed to update: " +:+ repositories_path args suffix)),
           s3))
  ∧ trace s3
    = trace s ++ mkdir_events h args suffix s
      ++ [EvLog Debug ("(" +:+ suffix +:+ ") update /etc/apk/repositories")]
      ++ rm_events h args suffix s1 ++ echo_events h args suffix
      ++ mkdir_events h args suffix s2.
Proof.
  intros Hcache Hread Hdiff Hwrite Hcheck. split.
  - rewrite update_repository_list_unfold, bool_decide_eq_false_2 by done.
    erewrite bind_val by exact Hread.
    rewrite bool_decide_eq_false_2 by done.
    erewrite bind_val by exact Hwrite.
    rewrite update_repository_list_unfold, bool_decide_eq_false_2.
    2: { by rewrite (rewrite_file_session _ _ _ _ _ _ Hwrite),
           (read_old_lines_session _ _ _ _ _ _ Hread). }
    erewrite bind_val by exact Hcheck. by case_bool_decide.
  - rewrite (read_old_lines_trace _ _ _ _ _ _ Hcheck),
      (rewrite_file_trace _ _ _ _ _ Hwrite), (read_old_lines_trace _ _ _ _ _ _ Hread).
    by rewrite <-!(assoc_L (++)).
Qed.

(** A successful call leaves the suffix marked in the session cache. *)
Lemma update_repository_list_marks (h : Host) fuel args suffix check
    (s s' : St (Ext h)) :
  update_repository_list h fuel args suffix check s = (Val (), s') →
  suffix ∈ apk_repository_list_updated (session s').
Proof.
  revert s check. induction fuel as [|fuel IH]; intros s check; [done|].
  rewrite update_repository_list_unfold. case_bool_decide as Hin.
  - by intros [= <-].
  - intros Hrun. apply bind_inv_val in Hrun as (lines_old & s1 & _ & Hrun).
    case_bool_decide.
    + injection Hrun as <-. cbn. apply elem_of_app. right. by apply list_elem_of_singleton.
    + destruct check; [done|].
      apply bind_inv_val in Hrun as ([] & s2 & _ & Hrun). by eapply IH.
Qed.

(** C8: after a call that returned, a second call for the same suffix
    returns at once, in the state it was given: no command is run, no file
    is written and the trace is the same. *)
Theorem update_repository_list_second_call (h : Host) (fuel fuel' : nat) (args : Args)
    (suffix : string) (s s' : St (Ext h)) :
  update_repository_list h fuel args suffix false s = (Val (), s') →
  update_repository_list h (S fuel') args suffix false s' = (Val (), s').
Proof.
  intros Hfirst. rewrite update_repository_list_unfold.
  by rewrite bool_decide_eq_true_2 by by eapply update_repository_list_marks.
Qed.

Lemma update_repository_list_rewrites_once_witness :
  sync_run mirrors 2 (Toy.start Toy.empty)
  = (Val (),
     {| session := {| apk_repository_list_updated := ["native"];
                      apk_min_version_checked := [] |};
        ext := {| Toy.files :=
                    {[ "/w/chroot_native/etc/apk/repositories" :=
                         "https://mirror/a" +:+ Py.str Py.newline
                         +:+ "https://mirror/b" +:+ Py.str Py.newline ]};
                  Toy.index := ∅; Toy.aports := ∅; Toy.uptodate := [];
                  Toy.db := ∅ |};
        trace := [EvRunRoot ["mkdir"; "-p"; "/w/chroot_native/etc/apk"];
                  EvLog Debug "(native) update /etc/apk/repositories";
                  EvRunRoot ["sh"; "-c"; "echo https://mirror/a >> /w/chroot_native/etc/apk/repositories"];
                  EvRunRoot ["sh"; "-c"; "echo https://mirror/b >> /w/chroot_native/etc/apk/repositories"]] |})
  ∧ (sync_run ["a b"] 2 (Toy.start Toy.empty)).1
    = Exn (RuntimeError "Failed to update: /w/chroot_native/etc/apk/repositories").
Proof.
  split.
  - pose (hh := Toy.host mirrors id).
    pose (s1 := (read_old_lines hh Toy.args "native" (Toy.start Toy.empty)).2).
    pose (s2 := (rewrite_file hh Toy.args "native" s1).2).
    pose (s3 := (read_old_lines hh Toy.args "native" s2).2).
    destruct (update_repository_list_rewrites_once hh 0 Toy.args "native" [] mirrors
                (Toy.start Toy.empty) s1 s2 s3) as [Heq _].
    + apply not_elem_of_nil.
    + vm_compute. reflexivity.
    + done.
    + vm_compute. reflexivity.
    + vm_compute. reflexivity.
    + unfold sync_run. fold hh. rewrite Heq. vm_compute. reflexivity.
  - pose (hh := Toy.host ["a b"] id).
    pose (s1 := (read_old_lines hh Toy.args "native" (Toy.start Toy.empty)).2).
    pose (s2 := (rewrite_file hh Toy.args "native" s1).2).
    pose (s3 := (read_old_lines hh Toy.args "native" s2).2).
    destruct (update_repository_list_rewrites_once hh 0 Toy.args "native" [] ["'a b'"]
                (Toy.start Toy.empty) s1 s2 s3) as [Heq _].
    + apply not_elem_of_nil.
    + vm_compute. reflexivity.
    + done.
    + vm_compute. reflexivity.
    + vm_compute. reflexivity.
    + unfold sync_run. fold hh. rewrite Heq. vm_compute. reflexivity.
Defined.

Lemma update_repository_list_second_call_witness :
  let first := sync_run mirrors 2 (Toy.start Toy.empty) in
  first.1 = Val ()
  ∧ trace first.2 ≠ []
  ∧ sync_run mirrors 1 first.2 = (Val (), first.2).
Proof.
  cbv zeta. split; [by vm_compute | split; [by vm_compute|]].
  apply (update_repository_list_second_call (Toy.host mirrors id) 2 0 Toy.args
           "native" (Toy.start Toy.empty)).
  vm_compute. reflexivity.
Defined.

(** ** Lines of a file and the final character *)

Lemma no_newline_cons (c : ascii) (u : string) :
  no_newline (String c u) = true → Ascii.eqb c Py.newline = false ∧ no_newline u = true.
Proof.
  unfold no_newline. cbn [Py.forallb_str]. intros [Hc Hu]%andb_prop.
  by apply negb_true_iff in Hc.
Qed.

Lemma readlines_line (u rest : string) :
  no_newline u = true →
  Py.readlines (u +:+ String Py.newline rest) = (u +:+ Py.str Py.newline) :: Py.readlines rest.
Proof.
  induction u as [|c u IH].
  - intros _. change (EmptyString +:+ String Py.newline rest) with (String Py.newline rest).
    cbn [Py.readlines]. by rewrite Ascii.eqb_refl.
  - intros [Hc Hu]%no_newline_cons.
    change (String c u +:+ String Py.newline rest)
      with (String c (u +:+ String Py.newline rest)).
    cbn [Py.readlines]. by rewrite Hc, (IH Hu).
Qed.

Lemma readlines_last (u : string) :
  no_newline u = true →
  Py.readlines u = match u with EmptyString => [] | String _ _ => [u] end.
Proof.
  induction u as [|c u IH]; [done|].
  intros [Hc Hu]%no_newline_cons. cbn [Py.readlines].
  rewrite Hc, (IH Hu). by destruct u.
Qed.

Lemma drop_last_snoc (u : string) (c : ascii) : Py.drop_last (u +:+ Py.str c) = u.
Proof.
  induction u as [|d u IH]; [done|].
  change (String d u +:+ Py.str c) with (String d (u +:+ Py.str c)).
  cbn [Py.drop_last]. rewrite IH. by destruct u.
Qed.

Lemma drop_last_length (u : string) :
  String.length (Py.drop_last u) = pred (String.length u).
Proof.
  induction u as [|c u IH]; cbn; [done|].
  destruct u as [|d u]; [done|]. cbn [String.length]. rewrite IH. done.
Qed.

Lemma drop_last_neq (c : ascii) (u : string) : Py.drop_last (String c u) ≠ String c u.
Proof.
  intros Heq. apply (f_equal String.length) in Heq.
  rewrite drop_last_length in Heq. cbn in Heq. lia.
Qed.

(** A file that holds the lines of [lines] with no newline after the last
    one does not read back as [lines]. *)
Lemma read_unterminated (lines : list string) :
  lines ≠ [] →
  Forall (λ u, no_newline u = true) lines →
  Py.drop_last <$> Py.readlines (unterminated lines) ≠ lines.
Proof.
  unfold unterminated.
  induction lines as [|u lines IH]; [done|]. intros _ Hall.
  apply Forall_cons in Hall as [Hu Hall].
  destruct lines as [|v lines].
  - cbn [Py.join]. rewrite (readlines_last _ Hu).
    destruct u as [|c u]; [done|]. cbn. intros [= Heq]. by eapply drop_last_neq.
  - change (Py.join (Py.str Py.newline) (u :: v :: lines))
      with (u +:+ String Py.newline (Py.join (Py.str Py.newline) (v :: lines))).
    rewrite (readlines_line _ _ Hu). cbn [fmap list_fmap].
    rewrite drop_last_snoc. intros [= Heq]. by apply IH.
Qed.

(** A file in which every line ends with a newline reads back as the
    lines, and the call takes it for synchronized without running a
    command. *)
Lemma read_terminated (lines : list string) :
  Forall (λ u, no_newline u = true) lines →
  Py.drop_last <$> Py.readlines (terminated lines) = lines.
Proof.
  induction 1 as [|u lines Hu _ IH]; [done|].
  cbn [terminated]. rewrite (readlines_line _ _ Hu). cbn [fmap list_fmap].
  by rewrite drop_last_snoc, IH.
Qed.

Lemma update_repository_list_terminated (h : Host) fuel args suffix check
    (s : St (Ext h)) :
  suffix ∉ apk_repository_list_updated (session s) →
  path_exists h (ext s) (repositories_path args suffix) = true →
  Forall (λ u, no_newline u = true) (repo_urls h args) →
  read_text h (ext s) (repositories_path args suffix) = terminated (repo_urls h args) →
  update_repository_list h (S fuel) args suffix check s
  = (Val (), mark_updated h suffix s).
Proof.
  intros Hcache Hex Hall Htext.
  rewrite update_repository_list_unfold, bool_decide_eq_false_2 by done.
  erewrite bind_val.
  2: { unfold read_old_lines, os_path_exists, open_lines. munfold. cbn.
       by rewrite Hex, Htext, read_terminated. }
  by rewrite bool_decide_eq_true_2.
Qed.

Lemma update_repository_list_grows (h : Host) fuel args suffix check :
  grows (λ _, True) (update_repository_list h fuel args suffix check).
Proof.
  revert check. induction fuel as [|fuel IH]; intros check; cbn [update_repository_list].
  - apply grows_out_of_fuel.
  - unfold os_path_exists, open_lines, helpers_run_root, logging.
    grows_tac; apply IH.
Qed.

(** C10, as the code has it: every line read loses its final character;
    so a file that holds the desired lines, with no newline after the last
    one, does not compare equal to the desired list, and the call goes on
    to rewrite it: it logs the update and removes the file first. *)
Theorem update_repository_list_unterminated (h : Host) (fuel : nat) (args : Args)
    (suffix : string) (s : St (Ext h)) :
  let path := repositories_path args suffix in
  suffix ∉ apk_repository_list_updated (session s) →
  path_exists h (ext s) path = true →
  repo_urls h args ≠ [] →
  Forall (λ u, no_newline u = true) (repo_urls h args) →
  read_text h (ext s) path = unterminated (repo_urls h args) →
  let lines_old := Py.drop_last <$> Py.readlines (read_text h (ext s) path) in
  read_old_lines h args suffix s = (Val lines_old, s)
  ∧ lines_old ≠ repo_urls h args
  ∧ update_repository_list h (S fuel) args suffix false s
    = (rewrite_file h args suffix ;; update_repository_list h fuel args suffix true) s
  ∧ ∃ evs,
      trace (update_repository_list h (S fuel) args suffix false s).2
      = trace s
        ++ [EvLog Debug ("(" +:+ suffix +:+ ") update /etc/apk/repositories");
            EvRunRoot ["rm"; path]]
        ++ evs.
Proof.
  intros path Hcache Hex Hne Hall Htext lines_old.
  assert (Hread : read_old_lines h args suffix s = (Val lines_old, s)).
  { unfold read_old_lines, os_path_exists, open_lines. munfold. cbn.
    fold path. by rewrite Hex. }
  assert (Hdiff : lines_old ≠ repo_urls h args).
  { unfold lines_old. rewrite Htext. by apply read_unterminated. }
  assert (Hstep : update_repository_list h (S fuel) args suffix false s
    = (rewrite_file h args suffix ;; update_repository_list h fuel args suffix true) s).
  { rewrite update_repository_list_unfold, bool_decide_eq_false_2 by done.
    erewrite bind_val by exact Hread. by rewrite bool_decide_eq_false_2. }
  repeat split; try done.
  rewrite Hstep. unfold mbind, M_bind.
  destruct (rewrite_file h args suffix s) as [r s1] eqn:Hwrite.
  destruct (rewrite_file_starts _ _ _ _ _ _ Hex Hwrite) as (evs & Htr).
  destruct r as [[]|e|]; [|by eauto..].
  destruct (update_repository_list h fuel args suffix true s1) as [r2 s2] eqn:Hrun.
  destruct (update_repository_list_grows _ _ _ _ _ _ _ _ Hrun) as (evs2 & Htr2 & _).
  exists (evs ++ evs2). cbn. by rewrite Htr2, Htr, <-!(assoc_L (++)).
Qed.

Lemma update_repository_list_unterminated_witness :
  let r := sync_run ["https://a"] 2 (Toy.start (world_with_list "https://a")) in
  r.1 = Val ()
  ∧ trace r.2
    = [EvLog Debug "(native) update /etc/apk/repositories";
       EvRunRoot ["rm"; "/w/chroot_native/etc/apk/repositories"];
       EvRunRoot ["sh"; "-c"; "echo https://a >> /w/chroot_native/etc/apk/repositories"]]
  ∧ Toy.files (ext r.2) !! "/w/chroot_native/etc/apk/repositories"
    = Some ("https://a" +:+ Py.str Py.newline).
Proof.
  cbv zeta.
  destruct (update_repository_list_unterminated (Toy.host ["https://a"] id) 1 Toy.args
              "native" (Toy.start (world_with_list "https://a")))
    as (_ & _ & Hstep & _).
  - apply not_elem_of_nil.
  - reflexivity.
  - done.
  - by repeat constructor.
  - reflexivity.
  - unfold sync_run. rewrite Hstep. by vm_compute.
Defined.

(** C10, counterexample: the file holds [https://aX] and no newline, the
    desired list is [https://a].  The last line does not end with a newline,
    and yet the call takes the file for synchronized: it marks the suffix
    and runs no command. *)
Lemma update_repository_list_last_char_unchecked :
  Py.readlines "https://aX" = ["https://aX"]
  ∧ sync_run ["https://a"] 2 (Toy.start (world_with_list "https://aX"))
    = (Val (),
       {| session := {| apk_repository_list_updated := ["native"];
                        apk_min_version_checked := [] |};
          ext := world_with_list "https://aX";
          trace := [] |}).
Proof. split; by vm_compute. Qed.

(** ** The local path resolver *)

Section Resolver.
Context (h : Host) (args : Args) (suffix arch : string).
Implicit Types s : St (Ext h).

Lemma replace_loop_ok packages s :
  (∀ package, package ∈ packages → ¬ unindexed h arch (ext s) package) →
  ∃ out, Forall2 (resolved h args suffix arch (ext s)) packages out
         ∧ ∀ ret, replace_loop h args packages suffix arch ret s = (Val (ret ++ out), s).
Proof.
  induction packages as [|package packages IH]; intros Hall.
  - exists []. split; [constructor|]. intros ret. cbn. by rewrite app_nil_r.
  - destruct IH as (out & Hout & Hrun).
    { intros p Hp. apply Hall. by right. }
    assert (Hhead : ¬ unindexed h arch (ext s) package) by (apply Hall; by left).
    unfold unindexed, locally_built in Hhead.
    destruct (truthy_str (pmaports_find h (ext s) package)) eqn:Hfind.
    + destruct (apkindex_package h (ext s) package arch) as [data_repo|] eqn:Hidx;
        [|by destruct Hhead].
      eexists (_ :: out). split.
      * constructor; [|done]. split; [|unfold locally_built; congruence].
        intros _. exists data_repo. split; [done | reflexivity].
      * intros ret. cbn [replace_loop]. unfold get_ext, os_path_exists.
        munfold. cbn. rewrite Hfind, Hidx. cbn.
        by rewrite Hrun, <-(assoc_L (++)).
    + exists (package :: out). split.
      * constructor; [|done]. split; [unfold locally_built; congruence | done].
      * intros ret. cbn [replace_loop]. unfold get_ext. munfold. cbn.
        rewrite Hfind. by rewrite Hrun, <-(assoc_L (++)).
Qed.

Lemma replace_loop_fails packages s :
  (∃ package, package ∈ packages ∧ unindexed h arch (ext s) package) →
  ∃ package, package ∈ packages ∧ unindexed h arch (ext s) package
    ∧ ∀ ret, replace_loop h args packages suffix arch ret s
             = (Exn (RuntimeError (msg_no_index package)), s).
Proof.
  induction packages as [|package packages IH]; intros (bad & Hin & Hbad).
  - by apply elem_of_nil in Hin.
  - destruct (truthy_str (pmaports_find h (ext s) package)) eqn:Hfind.
    + destruct (apkindex_package h (ext s) package arch) as [data_repo|] eqn:Hidx.
      * destruct IH as (q & Hq & Hun & Hrun).
        { apply elem_of_cons in Hin as [->|Hin]; [|by eauto].
          destruct Hbad as [_ Hnone]. congruence. }
        exists q. split; [by right|]. split; [done|].
        intros ret. cbn [replace_loop]. unfold get_ext, os_path_exists.
        munfold. cbn. rewrite Hfind, Hidx. cbn. apply Hrun.
      * exists package. split; [by left|]. split; [done|].
        intros ret. cbn [replace_loop]. unfold get_ext. munfold. cbn.
        by rewrite Hfind, Hidx.
    + destruct IH as (q & Hq & Hun & Hrun).
      { apply elem_of_cons in Hin as [->|Hin]; [|by eauto].
        destruct Hbad as [Hlb _]. unfold locally_built in Hlb. congruence. }
      exists q. split; [by right|]. split; [done|].
      intros ret. cbn [replace_loop]. unfold get_ext. munfold. cbn.
      rewrite Hfind. apply Hrun.
Qed.

End Resolver.

(** C9: when some package of the list is recognized by the aports lookup
    and has no index entry, the resolver raises the error for such a package;
    otherwise it returns a list that has, in the place of each package, the
    path of its artifact when the package is recognized and the artifact file
    exists in the chroot, and the name itself when it is not recognized or the
    file does not exist.  The state is left as it is in both cases. *)
Theorem replace_aports_packages_with_path_spec (h : Host) (args : Args)
    (packages : list string) (suffix arch : string) (s : St (Ext h)) :
  ((∃ package, package ∈ packages ∧ unindexed h arch (ext s) package) →
   ∃ package, package ∈ packages ∧ unindexed h arch (ext s) package
     ∧ replace_aports_packages_with_path h args packages suffix arch s
       = (Exn (RuntimeError (msg_no_index package)), s))
  ∧ ((∀ package, package ∈ packages → ¬ unindexed h arch (ext s) package) →
     ∃ out, replace_aports_packages_with_path h args packages suffix arch s
            = (Val out, s)
            ∧ Forall2 (resolved h args suffix arch (ext s)) packages out).
Proof.
  unfold replace_aports_packages_with_path. split.
  - intros Hbad. destruct (replace_loop_fails h args suffix arch _ s Hbad)
      as (q & Hq & Hun & Hrun). eauto.
  - intros Hall. destruct (replace_loop_ok h args suffix arch _ s Hall)
      as (out & Hout & Hrun). exists out. by rewrite Hrun.
Qed.

Lemma replace_aports_packages_with_path_spec_witness :
  resolve_run ["hello"; "busybox"; "fresh"]
  = (Val ["/mnt/pmbootstrap-packages/x86_64/hello-1.0-r0.apk"; "busybox"; "fresh"],
     Toy.start world_aports)
  ∧ (∃ package, package ∈ ["hello"; "ghost"]
       ∧ resolve_run ["hello"; "ghost"]
         = (Exn (RuntimeError (msg_no_index package)), Toy.start world_aports))
  ∧ (resolve_run ["hello"; "ghost"]).1 = Exn (RuntimeError (msg_no_index "ghost")).
Proof.
  split; [|split].
  - destruct (replace_aports_packages_with_path_spec (Toy.host [] id) Toy.args
                ["hello"; "busybox"; "fresh"] "native" "x86_64" (Toy.start world_aports))
      as [_ Hok].
    destruct Hok as (out & Heq & _).
    { intros p Hp [Hlb Hnone].
      repeat (apply elem_of_cons in Hp as [->|Hp]);
        try (by vm_compute in Hnone); try (by vm_compute in Hlb).
      by apply elem_of_nil in Hp. }
    unfold resolve_run. rewrite Heq. vm_compute in Heq. by injection Heq as <-.
  - destruct (replace_aports_packages_with_path_spec (Toy.host [] id) Toy.args
                ["hello"; "ghost"] "native" "x86_64" (Toy.start world_aports))
      as [Hfail _].
    destruct Hfail as (q & Hq & _ & Heq).
    { exists "ghost". split; [by right; left | by split]. }
    exists q. by split.
  - by vm_compute.
Defined.

(** ** The install planner *)

Section Planner.
Context (h : Host).
Implicit Types s : St (Ext h).

Lemma check_min_version_grows args suffix :
  grows no_apk (check_min_version h args suffix).
Proof.
  unfold check_min_version, os_path_exists, installed, logging. grows_tac.
Qed.

Lemma install_is_necessary_grows fuel args build arch package
    (packages_installed : gmap string Entry) :
  grows no_apk
    (install_is_necessary h fuel args build arch package packages_installed).
Proof.
  induction fuel as [|fuel IH]; cbn [install_is_necessary].
  - apply grows_out_of_fuel.
  - unfold build_package_call, logging, py_float. grows_tac. apply IH.
Qed.

Lemma filter_outdated_grows fuel args build arch
    (packages_installed : gmap string Entry) packages toadd todel :
  grows no_apk
    (filter_outdated h fuel args build arch packages_installed packages toadd todel).
Proof.
  revert toadd todel.
  induction packages as [|package packages IH]; intros toadd todel;
    cbn [filter_outdated].
  - apply grows_ret.
  - apply grows_bind; [apply install_is_necessary_grows | intros necessary].
    repeat case_match; apply IH.
Qed.

(** The preparation runs apk through no call of its own, and it has
    initialized the chroot when it returns. *)
Lemma install_prepare_trace fuel args packages suffix build s r s1 :
  install_prepare h fuel args packages suffix build s = (Val r, s1) →
  ∃ evs, trace s1 = trace s ++ evs ∧ Forall no_apk evs ∧ EvChrootInit suffix ∈ evs.
Proof.
  unfold install_prepare. intros Hrun.
  apply bind_inv_val in Hrun as ([] & sa & Hgate & Hrun).
  apply bind_inv_val in Hrun as ([] & sb & Hinit & Hrun).
  destruct (check_min_version_grows _ _ _ _ _ Hgate) as (evs_a & Ha & Hevs_a).
  assert (Hsb : trace sb = trace sa ++ [EvChrootInit suffix]).
  { revert Hinit. unfold call_world.
    destruct (chroot_init h _ _ _) as [e|[c x]]; [done | by intros [= <-]]. }
  assert (Hg : grows no_apk
            (arch ← from_sum (from_chroot_suffix h args suffix);
             x ← get_ext;
             packages_with_depends ← from_sum (depends_recurse h x packages suffix);
             packages_installed ← installed h args suffix;
             parts ← filter_outdated h fuel args build arch packages_installed
                        packages_with_depends [] [];
             mret (arch, packages_installed, parts))).
  { apply grows_bind; [apply grows_from_sum | intros arch].
    apply grows_bind; [apply grows_get_ext | intros x].
    apply grows_bind; [apply grows_from_sum | intros closure].
    apply grows_bind; [unfold installed; grows_tac | intros db].
    apply grows_bind; [apply filter_outdated_grows | intros parts].
    apply grows_ret. }
  destruct (Hg _ _ _ Hrun) as (evs_c & Hc & Hevs_c).
  exists (evs_a ++ [EvChrootInit suffix] ++ evs_c). split; [|split].
  - by rewrite Hc, Hsb, Ha, <-!(assoc_L (++)).
  - apply Forall_app. split; [done|]. apply Forall_app. split; [|done].
    by repeat constructor.
  - apply elem_of_app. right. by left.
Qed.

Lemma sanitize_ok packages s :
  Forall (λ p, Py.startswith p "-" = false) packages →
  sanitize h packages s = (Val (), s).
Proof.
  induction 1 as [|p packages Hp _ IH]; cbn [sanitize]; [done|]. by rewrite Hp.
Qed.

Lemma sanitize_fails packages s :
  (∃ p, p ∈ packages ∧ Py.startswith p "-" = true) →
  ∃ p, p ∈ packages ∧ Py.startswith p "-" = true
    ∧ sanitize h packages s = (Exn (ValueError ("Invalid package name: " +:+ p)), s).
Proof.
  induction packages as [|q packages IH]; intros (p & Hin & Hp).
  - by apply elem_of_nil in Hin.
  - cbn [sanitize]. destruct (Py.startswith q "-") eqn:Hq.
    + exists q. split; [by left | done].
    + destruct IH as (p' & Hin' & Hp' & Hrun).
      { apply elem_of_cons in Hin as [->|Hin]; [congruence | eauto]. }
      exists p'. split; [by right | done].
Qed.

(** What the check covers: after it, no token of the resolved add-set and
    of the remove-set begins with a dash (a substituted path begins with a
    slash). *)
Lemma checked_tokens_no_dash args suffix arch x
    (packages_toadd packages_todel resolved_toadd : list string) :
  Forall (λ p, Py.startswith p "-" = false) (packages_toadd ++ packages_todel) →
  Forall2 (resolved h args suffix arch x) packages_toadd resolved_toadd →
  Forall (λ p, Py.startswith p "-" = false) (resolved_toadd ++ packages_todel).
Proof.
  intros [Hadd Hdel]%Forall_app Hres. apply Forall_app. split; [|done].
  induction Hres as [|p out toadd outs [Hlocal Hplain] _ IH]; [done|].
  apply Forall_cons in Hadd as [Hp Hadd]. constructor; [|by apply IH].
  unfold locally_built in Hlocal, Hplain.
  destruct (truthy_str (pmaports_find h x p)).
  - destruct (Hlocal eq_refl) as (data_repo & _ & ->). by case_match.
  - by rewrite Hplain.
Qed.

End Planner.

(** C3, as the code has it: when a token of the add-set or of the
    remove-set begins with a dash, [install] raises the error for the first
    such token, in the state the preparation left: apk has been run by no
    call of [install], and the version gate, the initialization of the chroot,
    the dependency resolution and the builds of the necessity evaluator have
    been run before. *)
Theorem install_rejects_dash (h : Host) (fuel : nat) (args : Args)
    (packages : list string) (suffix : string) (build : bool) (arch : string)
    (packages_installed : gmap string Entry) (packages_toadd packages_todel : list string)
    (s s1 : St (Ext h)) :
  install_prepare h fuel args packages suffix build s
  = (Val (arch, packages_installed, (packages_toadd, packages_todel)), s1) →
  (∃ p, p ∈ packages_toadd ++ packages_todel ∧ Py.startswith p "-" = true) →
  ∃ p evs,
    p ∈ packages_toadd ++ packages_todel ∧ Py.startswith p "-" = true
    ∧ install h fuel args packages suffix build s
      = (Exn (ValueError ("Invalid package name: " +:+ p)), s1)
    ∧ trace s1 = trace s ++ evs ∧ Forall no_apk evs ∧ EvChrootInit suffix ∈ evs.
Proof.
  intros Hprep Hdash.
  destruct (install_prepare_trace _ _ _ _ _ _ _ _ _ Hprep) as (evs & Htr & Hevs & Hinit).
  destruct (sanitize_fails h _ s1 Hdash) as (p & Hin & Hp & Hrun).
  exists p, evs. repeat split; try done.
  unfold install. erewrite bind_val by exact Hprep. cbn beta iota.
  destruct Hdash as (q & Hq & _).
  assert (is_empty packages_toadd && is_empty packages_todel = false) as ->.
  { destruct packages_toadd; [|done]. destruct packages_todel; [|done].
    by apply elem_of_nil in Hq. }
  by erewrite bind_exn by exact Hrun.
Qed.

Lemma install_rejects_dash_witness :
  (install (Toy.host [] id) 1 Toy.args ["-x"] "native" true (Toy.start Toy.empty)).1
  = Exn (ValueError "Invalid package name: -x").
Proof.
  pose (r := install_prepare (Toy.host [] id) 1 Toy.args ["-x"] "native" true
               (Toy.start Toy.empty)).
  destruct (install_rejects_dash (Toy.host [] id) 1 Toy.args ["-x"] "native" true
              "x86_64" ∅ ["-x"] [] (Toy.start Toy.empty) r.2)
    as (p & evs & Hin & _ & Heq & _).
  - vm_compute. reflexivity.
  - exists "-x". split; [by left | done].
  - rewrite Heq. apply list_elem_of_singleton in Hin as ->. reflexivity.
Defined.

(** C3, counterexample: the request is [-x].  The error is raised, and by
    then the chroot has been initialized (its shell is in the file system)
    and the build of [-x] has been called. *)
Lemma install_dash_after_side_effects :
  install (Toy.host [] id) 1 Toy.args ["-x"] "native" true (Toy.start Toy.empty)
  = (Exn (ValueError "Invalid package name: -x"),
     {| session := {| apk_repository_list_updated := [];
                      apk_min_version_checked := [] |};
        ext := {| Toy.files := {[ "/w/chroot_native/bin/sh" := "" ]};
                  Toy.index := ∅; Toy.aports := ∅; Toy.uptodate := [];
                  Toy.db := ∅ |};
        trace := [EvLog Debug "NOTE: Skipped apk version check for chroot 'native', because it is not installed yet!";
                  EvChrootInit "native";
                  EvBuild "-x" "x86_64" false] |}).
Proof. by vm_compute. Qed.

(** C4, the code at the failing input: the request is [--allow-untrusted],
    which the resolver resolves to the package [evil] that provides it.  The
    add-set is [evil] and passes the check; the second command hands the
    requested token to apk. *)
Theorem install_passes_dash_token :
  install (Toy.host [] (λ _, ["evil"])) 1 Toy.args ["--allow-untrusted"] "native"
    true (Toy.start Toy.empty)
  = (Val (),
     {| session := {| apk_repository_list_updated := [];
                      apk_min_version_checked := [] |};
        ext := {| Toy.files := {[ "/w/chroot_native/bin/sh" := "" ]};
                  Toy.index := ∅; Toy.aports := ∅; Toy.uptodate := [];
                  Toy.db := ∅ |};
        trace := [EvLog Debug "NOTE: Skipped apk version check for chroot 'native', because it is not installed yet!";
                  EvChrootInit "native";
                  EvBuild "evil" "x86_64" false;
                  EvLog Info "(native) install --allow-untrusted";
                  EvApkProgress ["apk"; "add"; "-u"; "--virtual"; ".pmbootstrap"; "evil"]
                    "native";
                  EvChrootRoot ["apk"; "--no-progress"; "add"; "--allow-untrusted"]
                    "native";
                  EvChrootRoot ["apk"; "--no-progress"; "del"; ".pmbootstrap"]
                    "native"] |}).
Proof. by vm_compute. Qed.

Lemma compose_commands_cases (requested resolved todel : list string) :
  compose_commands requested resolved todel
  = (if bool_decide (resolved ≠ [] ∧ requested ≠ resolved)
     then add_virtual requested resolved else add_plain requested)
    ++ (if bool_decide (todel ≠ []) then [["del"] ++ todel] else []).
Proof.
  unfold compose_commands, add_plain, add_virtual, is_empty.
  destruct todel as [|d todel]; destruct resolved as [|r resolved]; cbn;
    repeat case_bool_decide; try done; try (by rewrite app_nil_r);
    try (by destruct_and?); exfalso; eauto.
Qed.

(** C5, as the code has it.  For a request whose add-set or remove-set is
    not empty and passes the check, [install] runs the commands that follow,
    in order: the add command over the requested packages without the
    removals, or, exactly when the resolved add-set is not empty and differs
    from them, the three commands of the virtual package in its place; then
    one removal command exactly when the remove-set is not empty.  For the
    request [a], [!b] the sequence is [add a], [del b] when the dependency
    closure is the request itself: the filter yields [a] and [b] when [a] is
    not installed and [b] is, and the resolver leaves [a] when the aports
    lookup does not recognize it. *)
Theorem install_commands (h : Host) (fuel : nat) (args : Args)
    (packages : list string) (suffix : string) (build : bool) (arch : string)
    (packages_installed : gmap string Entry)
    (packages_toadd packages_todel resolved : list string) (s s1 s2 : St (Ext h)) :
  install_prepare h fuel args packages suffix build s
  = (Val (arch, packages_installed, (packages_toadd, packages_todel)), s1) →
  packages_toadd ≠ [] ∨ packages_todel ≠ [] →
  Forall (λ p, Py.startswith p "-" = false) (packages_toadd ++ packages_todel) →
  (logging Info (install_message packages_installed packages
                   ("(" +:+ suffix +:+ ") install")) ;;
   replace_aports_packages_with_path h args packages_toadd suffix arch) s1
  = (Val resolved, s2) →
  let requested := without_conflicts packages in
  install h fuel args packages suffix build s
  = run_commands h args suffix 0
      ((if bool_decide (resolved ≠ [] ∧ requested ≠ resolved)
        then add_virtual requested resolved else add_plain requested)
       ++ (if bool_decide (packages_todel ≠ []) then [["del"] ++ packages_todel] else []))
      s2
  ∧ (∀ fuel' build' arch' (db : gmap string Entry) (sa sb : St (Ext h)),
       "a" ∉ dom db → "b" ∈ dom db →
       build_step h args build' arch' "a" sa = (Val (), sb) →
       filter_outdated h (S fuel') args build' arch' db ["a"; "!b"] [] [] sa
       = (Val (["a"], ["b"]), sb))
  ∧ (∀ suffix' arch' (sc : St (Ext h)),
       truthy_str (pmaports_find h (ext sc) "a") = false →
       replace_aports_packages_with_path h args ["a"] suffix' arch' sc
       = (Val ["a"], sc))
  ∧ (without_conflicts ["a"; "!b"] = ["a"]
     ∧ (if bool_decide (["a"] ≠ [] ∧ ["a"] ≠ ["a"])
        then add_virtual ["a"] ["a"] else add_plain ["a"])
       ++ (if bool_decide (["b"] ≠ []) then [["del"] ++ ["b"]] else [])
       = [["add"; "a"]; ["del"; "b"]]).
Proof.
  intros Hprep Hsome Hclean Hresolve requested. split; [|split; [|split]].
  - unfold install. erewrite bind_val by exact Hprep. cbn beta iota.
    assert (is_empty packages_toadd && is_empty packages_todel = false) as ->.
    { destruct packages_toadd; [|done]. destruct packages_todel; [|done].
      by destruct Hsome. }
    erewrite bind_val by (by apply sanitize_ok).
    apply bind_inv_val in Hresolve as ([] & s1' & Hlog & Hresolve).
    erewrite bind_val by exact Hlog. erewrite bind_val by exact Hresolve.
    by rewrite compose_commands_cases.
  - intros fuel' build' arch' db sa sb Ha Hb Hbuild.
    cbn [filter_outdated].
    assert (Hnec : install_is_necessary h (S fuel') args build' arch' "a" db sa
                   = (Val (Some true), sb)).
    { cbn [install_is_necessary]. cbn [Py.startswith Ascii.eqb Bool.eqb andb].
      unfold build_step in Hbuild. erewrite bind_val by exact Hbuild.
      by rewrite (proj1 (not_elem_of_dom db "a") Ha). }
    erewrite bind_val by exact Hnec. cbn.
    by rewrite bool_decide_eq_true_2.
  - intros suffix' arch' sc Hfind.
    unfold replace_aports_packages_with_path. cbn [replace_loop].
    unfold get_ext. munfold. cbn. by rewrite Hfind.
  - done.
Qed.

Lemma install_commands_witness :
  (install_ab id).1 = Val ()
  ∧ List.filter is_apk_call (trace (install_ab id).2)
    = [EvApkProgress ["apk"; "add"; "a"] "native";
       EvChrootRoot ["apk"; "--no-progress"; "del"; "b"] "native"].
Proof.
  pose (hh := Toy.host [] id).
  pose (s1 := (install_prepare hh 1 Toy.args ["a"; "!b"] "native" true
                 (Toy.start world_ab)).2).
  pose (s2 := mkSt (session s1) (ext s1)
                (trace s1 ++ [EvLog Info "(native) install a !b"])).
  destruct (install_commands hh 1 Toy.args ["a"; "!b"] "native" true "x86_64"
              (Toy.db world_ab) ["a"] ["b"] ["a"] (Toy.start world_ab) s1 s2)
    as (Hrun & _).
  - vm_compute. reflexivity.
  - by left.
  - by repeat constructor.
  - vm_compute. reflexivity.
  - unfold install_ab. fold hh. rewrite Hrun. split; by vm_compute.
Defined.

(** C5, counterexample: the same request, and the dependency closure adds
    the package [c], which is not installed.  [a] is not installed and has no
    aport, [b] is installed, no path is substituted, and the sequence is the
    three commands of the virtual package and the removal. *)
Lemma install_virtual_without_path :
  (install_ab (λ _, ["a"; "c"; "!b"])).1 = Val ()
  ∧ List.filter is_apk_call (trace (install_ab (λ _, ["a"; "c"; "!b"])).2)
    = [EvApkProgress ["apk"; "add"; "-u"; "--virtual"; ".pmbootstrap"; "a"; "c"]
         "native";
       EvChrootRoot ["apk"; "--no-progress"; "add"; "a"] "native";
       EvChrootRoot ["apk"; "--no-progress"; "del"; ".pmbootstrap"] "native";
       EvChrootRoot ["apk"; "--no-progress"; "del"; "b"] "native"].
Proof. split; by vm_compute. Qed.

(** * More of the module *)

(** ** The version gate *)

Lemma check_min_version_unfold (h : Host) args suffix (s : St (Ext h)) :
  check_min_version h args suffix s
  = if bool_decide (suffix ∈ apk_min_version_checked (session s)) then (Val (), s)
    else if negb (path_exists h (ext s) (apk_binary args suffix)) then
      (Val (),
       mkSt (session s) (ext s)
         (trace s ++ [EvLog Debug ("NOTE: Skipped apk version check for chroot '"
                                   +:+ suffix
                                   +:+ "', because it is not installed yet!")]))
    else match installed_db h args suffix (ext s) !! "apk-tools" with
         | None => (Exn (KeyError "apk-tools"), s)
         | Some data =>
             let s1 := mkSt (session s) (ext s)
                         (trace s ++ [EvCheckOutdated (version data) zap_hint]) in
             match check_outdated h (version data) zap_hint with
             | Some e => (Exn e, s1)
             | None => (Val (), mark_checked suffix s1)
             end
         end.
Proof.
  unfold check_min_version, os_path_exists, installed, apk_binary, installed_db,
    zap_hint. munfold. cbn.
  repeat (case_match; simplify_eq; cbn in *; try done).
Qed.

(** X1: whatever comes of [check_min_version], the world and the list of
    synchronized suffixes are as before; the suffix is marked as checked
    only by a call that returns after apk was found in the chroot, its entry
    was found in the installed database and [check_outdated] accepted its
    version: a skipped or failed check marks nothing. *)
Theorem check_min_version_marks_only_checked (h : Host) (args : Args)
    (suffix : string) (s s' : St (Ext h)) (r : res unit) :
  check_min_version h args suffix s = (r, s') →
  ext s' = ext s
  ∧ apk_repository_list_updated (session s') = apk_repository_list_updated (session s)
  ∧ (apk_min_version_checked (session s') = apk_min_version_checked (session s)
     ∨ (r = Val ()
        ∧ apk_min_version_checked (session s')
          = apk_min_version_checked (session s) ++ [suffix]
        ∧ path_exists h (ext s) (apk_binary args suffix) = true
        ∧ ∃ data,
            installed_db h args suffix (ext s) !! "apk-tools" = Some data
            ∧ check_outdated h (version data) zap_hint = None
            ∧ trace s' = trace s ++ [EvCheckOutdated (version data) zap_hint])).
Proof.
  rewrite check_min_version_unfold. intros Hrun.
  case_bool_decide; [by simplify_eq; eauto|].
  destruct (path_exists h (ext s) (apk_binary args suffix)) eqn:Hex; cbn in Hrun;
    [|by simplify_eq; eauto].
  destruct (installed_db h args suffix (ext s) !! "apk-tools") as [data|] eqn:Hdb;
    [|by simplify_eq; eauto].
  cbv zeta in Hrun.
  destruct (check_outdated h (version data) zap_hint) as [e|] eqn:Hout;
    simplify_eq; cbn; [by eauto|].
  repeat split; try done. right. repeat split; try done. by exists data.
Qed.

Lemma check_min_version_marks_only_checked_witness :
  (gate_run (Toy.start (world_apk true))).1 = Val ()
  ∧ session (gate_run (Toy.start (world_apk true))).2
    = {| apk_repository_list_updated := []; apk_min_version_checked := ["native"] |}
  ∧ ext (gate_run (Toy.start (world_apk true))).2 = world_apk true.
Proof.
  destruct (check_min_version_marks_only_checked (Toy.host [] id) Toy.args "native"
              (Toy.start (world_apk true)) (gate_run (Toy.start (world_apk true))).2
              (gate_run (Toy.start (world_apk true))).1)
    as (Hext & _ & _).
  - unfold gate_run. by destruct (check_min_version _ _ _ _).
  - split; [by vm_compute | split; [by vm_compute | exact Hext]].
Defined.

(** X2: the check is made once in a session: after a call that returned
    with apk installed in the chroot, a second call for the same suffix
    returns at once, in the state it was given, with no call of
    [check_outdated]. *)
Theorem check_min_version_once (h : Host) (args : Args) (suffix : string)
    (s s' : St (Ext h)) :
  check_min_version h args suffix s = (Val (), s') →
  path_exists h (ext s) (apk_binary args suffix) = true →
  check_min_version h args suffix s' = (Val (), s').
Proof.
  intros Hrun Hex. rewrite check_min_version_unfold in Hrun |- *.
  case_bool_decide as Hin; [simplify_eq; by rewrite bool_decide_eq_true_2|].
  rewrite Hex in Hrun. cbn in Hrun.
  destruct (installed_db h args suffix (ext s) !! "apk-tools") as [data|]; [|done].
  cbv zeta in Hrun. destruct (check_outdated h (version data) zap_hint); [done|].
  simplify_eq. rewrite bool_decide_eq_true_2; [done|].
  cbn. apply elem_of_app. right. by apply list_elem_of_singleton.
Qed.

Lemma check_min_version_once_witness :
  let first := gate_run (Toy.start (world_apk true)) in
  trace first.2 = [EvCheckOutdated "2.12.9-r3" zap_hint]
  ∧ gate_run first.2 = (Val (), first.2).
Proof.
  cbv zeta. split; [by vm_compute|].
  apply (check_min_version_once (Toy.host [] id) Toy.args "native"
           (Toy.start (world_apk true))); by vm_compute.
Defined.

(** X3: apk is in the chroot and the installed database has no entry
    [apk-tools]: the call raises [KeyError] for that key, in the state it was
    given; [check_outdated] is not called and the suffix is not marked. *)
Theorem check_min_version_missing_apk_tools (h : Host) (args : Args)
    (suffix : string) (s : St (Ext h)) :
  suffix ∉ apk_min_version_checked (session s) →
  path_exists h (ext s) (apk_binary args suffix) = true →
  installed_db h args suffix (ext s) !! "apk-tools" = None →
  check_min_version h args suffix s = (Exn (KeyError "apk-tools"), s).
Proof.
  intros Hin Hex Hdb. rewrite check_min_version_unfold.
  by rewrite bool_decide_eq_false_2, Hex, Hdb.
Qed.

Lemma check_min_version_missing_apk_tools_witness :
  gate_run (Toy.start (world_apk false))
  = (Exn (KeyError "apk-tools"), Toy.start (world_apk false)).
Proof.
  apply (check_min_version_missing_apk_tools (Toy.host [] id) Toy.args "native").
  - apply not_elem_of_nil.
  - reflexivity.
  - reflexivity.
Defined.

(** X4: while apk is not in the chroot the check is skipped with a debug
    note and the suffix stays unmarked, so the check is still made later: in
    a later state with the same session cache in which apk and its database
    entry are there, the call hands the installed version to
    [check_outdated] and marks the suffix. *)
Theorem check_min_version_skipped_then_checked (h : Host) (args : Args)
    (suffix : string) (s s' later : St (Ext h)) (r : res unit) (data : Entry) :
  suffix ∉ apk_min_version_checked (session s) →
  path_exists h (ext s) (apk_binary args suffix) = false →
  check_min_version h args suffix s = (r, s') →
  session later = session s' →
  path_exists h (ext later) (apk_binary args suffix) = true →
  installed_db h args suffix (ext later) !! "apk-tools" = Some data →
  check_outdated h (version data) zap_hint = None →
  r = Val ()
  ∧ session s' = session s
  ∧ check_min_version h args suffix later
    = (Val (),
       mark_checked suffix
         (mkSt (session later) (ext later)
            (trace later ++ [EvCheckOutdated (version data) zap_hint]))).
Proof.
  intros Hin Hex Hrun Hsession Hex' Hdb Hout.
  rewrite check_min_version_unfold, bool_decide_eq_false_2, Hex in Hrun by done.
  cbn in Hrun. simplify_eq. cbn in Hsession. repeat split.
  rewrite check_min_version_unfold, bool_decide_eq_false_2, Hex', Hdb by congruence.
  cbn. by rewrite Hout.
Qed.

Lemma check_min_version_skipped_then_checked_witness :
  gate_run (Toy.start Toy.empty)
  = (Val (),
     mkSt (session (Toy.start Toy.empty)) Toy.empty
       [EvLog Debug "NOTE: Skipped apk version check for chroot 'native', because it is not installed yet!"])
  ∧ (gate_run (mkSt (session (gate_run (Toy.start Toy.empty)).2) (world_apk true) [])).1
    = Val ()
  ∧ apk_min_version_checked
      (session (gate_run (mkSt (session (gate_run (Toy.start Toy.empty)).2)
                            (world_apk true) [])).2)
    = ["native"].
Proof.
  destruct (check_min_version_skipped_then_checked (Toy.host [] id) Toy.args "native"
              (Toy.start Toy.empty) (gate_run (Toy.start Toy.empty)).2
              (mkSt (session (gate_run (Toy.start Toy.empty)).2) (world_apk true) [])
              (gate_run (Toy.start Toy.empty)).1
              (Toy.entry "apk-tools" "2.12.9-r3" "100"))
    as (_ & _ & Hlater).
  - apply not_elem_of_nil.
  - reflexivity.
  - unfold gate_run. by destruct (check_min_version _ _ _ _).
  - reflexivity.
  - reflexivity.
  - reflexivity.
  - reflexivity.
  - split; [by vm_compute|]. unfold gate_run at 1 3. rewrite Hlater. by vm_compute.
Defined.

(** ** More on the repository list synchronizer *)

Lemma update_repository_list_session (h : Host) fuel args suffix check
    (s s' : St (Ext h)) (r : res unit) :
  update_repository_list h fuel args suffix check s = (r, s') →
  session s' = session s
  ∨ (r = Val () ∧ session s' = session (mark_updated h suffix s)).
Proof.
  revert s check. induction fuel as [|fuel IH]; intros s check.
  { intros [= <- <-]. by left. }
  rewrite update_repository_list_unfold. case_bool_decide.
  { intros [= <- <-]. by left. }
  unfold mbind at 1, M_bind at 1.
  destruct (read_old_lines h args suffix s) as [[lines_old|e|] s1] eqn:Hread;
    pose proof (read_old_lines_session _ _ _ _ _ _ Hread) as Hs1;
    [|intros [= <- <-]; by left..].
  case_bool_decide.
  { intros [= <- <-]. right. split; [done|]. cbn. by rewrite Hs1. }
  destruct check; [intros [= <- <-]; by left|].
  unfold mbind at 1, M_bind at 1.
  destruct (rewrite_file h args suffix s1) as [[[]|e|] s2] eqn:Hwrite;
    pose proof (rewrite_file_session _ _ _ _ _ _ Hwrite) as Hs2;
    [|intros [= <- <-]; left; congruence..].
  intros Hrun. destruct (IH _ _ Hrun) as [->|[-> ->]].
  - left. congruence.
  - right. split; [done|]. cbn. by rewrite Hs2, Hs1.
Qed.

(** X5: whatever comes of [update_repository_list], the list of checked
    suffixes is as before, and the suffix is marked as synchronized only by
    a call that returns, and then once: a call that raises leaves the
    session cache as it was, so that the next call tries again. *)
Theorem update_repository_list_marks_only_success (h : Host) (fuel : nat)
    (args : Args) (suffix : string) (check : bool) (s s' : St (Ext h)) (r : res unit) :
  update_repository_list h fuel args suffix check s = (r, s') →
  apk_min_version_checked (session s') = apk_min_version_checked (session s)
  ∧ (session s' = session s
     ∨ (r = Val ()
        ∧ apk_repository_list_updated (session s')
          = apk_repository_list_updated (session s) ++ [suffix])).
Proof.
  intros Hrun. destruct (update_repository_list_session _ _ _ _ _ _ _ _ Hrun)
    as [->|[-> ->]]; [by eauto|]. cbn. eauto.
Qed.

Lemma update_repository_list_marks_only_success_witness :
  session (sync_run ["a b"] 2 (Toy.start Toy.empty)).2
  = session (Toy.start Toy.empty)
  ∧ session (sync_run mirrors 2 (Toy.start Toy.empty)).2
    = {| apk_repository_list_updated := ["native"]; apk_min_version_checked := [] |}.
Proof.
  split; [|by vm_compute].
  destruct (update_repository_list_marks_only_success (Toy.host ["a b"] id) 2
              Toy.args "native" false (Toy.start Toy.empty)
              (sync_run ["a b"] 2 (Toy.start Toy.empty)).2
              (sync_run ["a b"] 2 (Toy.start Toy.empty)).1)
    as (_ & [Hsame|[Hval _]]).
  - unfold sync_run. by destruct (update_repository_list _ _ _ _ _ _).
  - exact Hsame.
  - by vm_compute in Hval.
Defined.

Lemma update_repository_list_check_fuel (h : Host) fuel args suffix (s : St (Ext h)) :
  update_repository_list h (S fuel) args suffix true s
  = update_repository_list h 1 args suffix true s.
Proof.
  rewrite !update_repository_list_unfold. case_bool_decide; [done|].
  unfold mbind, M_bind. destruct (read_old_lines h args suffix s) as [[lines_old|e|] s1];
    [|done..]. by case_bool_decide.
Qed.

(** X6: the function calls itself once at most (the call of the check
    phase does not call again): fuel for two rounds is all it ever uses, and
    with it the call always ends, in a value or in an exception. *)
Theorem update_repository_list_two_rounds (h : Host) (fuel : nat) (args : Args)
    (suffix : string) (check : bool) (s : St (Ext h)) :
  update_repository_list h (S (S fuel)) args suffix check s
  = update_repository_list h 2 args suffix check s
  ∧ (update_repository_list h 2 args suffix check s).1 ≠ NoFuel.
Proof.
  split; [|apply update_repository_list_halts].
  destruct check; [by rewrite !update_repository_list_check_fuel|].
  rewrite !update_repository_list_unfold. case_bool_decide; [done|].
  unfold mbind, M_bind. destruct (read_old_lines h args suffix s) as [[lines_old|e|] s1];
    [|done..]. case_bool_decide; [done|].
  destruct (rewrite_file h args suffix s1) as [[[]|e|] s2]; [|done..].
  apply update_repository_list_check_fuel.
Qed.

(** X7: a call of the check phase ([check] set) never writes: it runs no
    [rm] and no [echo] and logs nothing; the one command it may run is the
    [mkdir] of a reading that finds no file. *)
Theorem update_repository_list_check_reads_only (h : Host) (fuel : nat) (args : Args)
    (suffix : string) (s s' : St (Ext h)) (r : res unit) :
  update_repository_list h (S fuel) args suffix true s = (r, s') →
  trace s' = trace s
             ++ (if bool_decide (suffix ∈ apk_repository_list_updated (session s))
                 then [] else mkdir_events h args suffix s).
Proof.
  rewrite update_repository_list_unfold. case_bool_decide.
  { intros [= <- <-]. by rewrite app_nil_r. }
  unfold mbind, M_bind.
  destruct (read_old_lines h args suffix s) as [[lines_old|e|] s1] eqn:Hread;
    pose proof (read_old_lines_trace _ _ _ _ _ _ Hread) as Htr;
    [|by intros [= <- <-]..].
  case_bool_decide; by intros [= <- <-].
Qed.

Lemma update_repository_list_check_reads_only_witness :
  trace (update_repository_list (Toy.host mirrors id) 1 Toy.args "native" true
           (Toy.start Toy.empty)).2
  = [EvRunRoot ["mkdir"; "-p"; "/w/chroot_native/etc/apk"]]
  ∧ (update_repository_list (Toy.host mirrors id) 1 Toy.args "native" true
       (Toy.start Toy.empty)).1
    = Exn (RuntimeError "Failed to update: /w/chroot_native/etc/apk/repositories").
Proof.
  split; [|by vm_compute].
  rewrite (update_repository_list_check_reads_only (Toy.host mirrors id) 0 Toy.args
             "native" (Toy.start Toy.empty) _ _ (surjective_pairing _)).
  by vm_compute.
Defined.

(** X8: the format the synchronizer writes is the one it accepts.  A
    file that holds the desired lines, each one followed by a newline, reads
    back as the desired list; the call then runs no command, leaves the file
    system and the trace as they are and marks the suffix. *)
Theorem update_repository_list_synchronized (h : Host) (fuel : nat) (args : Args)
    (suffix : string) (check : bool) (s : St (Ext h)) :
  suffix ∉ apk_repository_list_updated (session s) →
  path_exists h (ext s) (repositories_path args suffix) = true →
  Forall (λ u, no_newline u = true) (repo_urls h args) →
  read_text h (ext s) (repositories_path args suffix) = terminated (repo_urls h args) →
  Py.drop_last <$> Py.readlines (terminated (repo_urls h args)) = repo_urls h args
  ∧ update_repository_list h (S fuel) args suffix check s
    = (Val (),
       {| session :=
            {| apk_repository_list_updated :=
                 apk_repository_list_updated (session s) ++ [suffix];
               apk_min_version_checked := apk_min_version_checked (session s) |};
          ext := ext s; trace := trace s |}).
Proof.
  intros Hcache Hex Hall Htext. split; [by apply read_terminated|].
  by rewrite update_repository_list_terminated.
Qed.

Lemma update_repository_list_synchronized_witness :
  sync_run ["https://a"] 1
    (Toy.start (world_with_list ("https://a" +:+ Py.str Py.newline)))
  = (Val (),
     {| session := {| apk_repository_list_updated := ["native"];
                      apk_min_version_checked := [] |};
        ext := world_with_list ("https://a" +:+ Py.str Py.newline);
        trace := [] |}).
Proof.
  refine (proj2 (update_repository_list_synchronized (Toy.host ["https://a"] id) 0
                   Toy.args "native" false
                   (Toy.start (world_with_list ("https://a" +:+ Py.str Py.newline)))
                   _ _ _ _)).
  - apply not_elem_of_nil.
  - reflexivity.
  - by repeat constructor.
  - reflexivity.
Defined.

(** X9: when the file is not there, the first thing the call does is the
    [mkdir -p] of its directory.  When that command raises, the call raises
    with it and does nothing more; when it returns and the desired list is
    empty, the empty reading equals the desired list: the suffix is marked and
    no file is written. *)
Theorem update_repository_list_missing_file (h : Host) (fuel : nat) (args : Args)
    (suffix : string) (check : bool) (s : St (Ext h)) :
  let path := repositories_path args suffix in
  let mkdir := ["mkdir"; "-p"; Py.dirname path] in
  suffix ∉ apk_repository_list_updated (session s) →
  path_exists h (ext s) path = false →
  (∃ evs, trace (update_repository_list h (S fuel) args suffix check s).2
          = trace s ++ [EvRunRoot mkdir] ++ evs)
  ∧ (∀ e, run_root h (ext s) mkdir = inl e →
       update_repository_list h (S fuel) args suffix check s
       = (Exn e, mkSt (session s) (ext s) (trace s ++ [EvRunRoot mkdir])))
  ∧ (∀ x, run_root h (ext s) mkdir = inr x → repo_urls h args = [] →
       update_repository_list h (S fuel) args suffix check s
       = (Val (),
          mark_updated h suffix (mkSt (session s) x (trace s ++ [EvRunRoot mkdir])))).
Proof.
  intros path mkdir Hcache Hex.
  assert (Hread : read_old_lines h args suffix s
                  = match run_root h (ext s) mkdir with
                    | inl e => (Exn e, mkSt (session s) (ext s) (trace s ++ [EvRunRoot mkdir]))
                    | inr x => (Val [], mkSt (session s) x (trace s ++ [EvRunRoot mkdir]))
                    end).
  { unfold read_old_lines, os_path_exists, helpers_run_root, call_ext. munfold. cbn.
    fold path. rewrite Hex. fold mkdir. by destruct (run_root h (ext s) mkdir). }
  split; [|split].
  - destruct (update_repository_list h (S fuel) args suffix check s) as [r s'] eqn:Hrun.
    revert Hrun.
    rewrite update_repository_list_unfold, bool_decide_eq_false_2 by done.
    unfold mbind at 1, M_bind at 1. rewrite Hread.
    destruct (run_root h (ext s) mkdir) as [e|x].
    { intros [= <- <-]. exists []. by rewrite app_nil_r. }
    case_bool_decide; [intros [= <- <-]; exists []; by rewrite app_nil_r|].
    destruct check; [intros [= <- <-]; exists []; by rewrite app_nil_r|].
    intros Hrun.
    assert (Hg : grows (λ _, True)
              (rewrite_file h args suffix ;; update_repository_list h fuel args suffix true)).
    { apply grows_bind; [|intros _; apply update_repository_list_grows].
      unfold rewrite_file, os_path_exists, helpers_run_root, logging. grows_tac. }
    destruct (Hg _ _ _ Hrun) as (evs & Htr & _). exists evs.
    cbn in Htr |- *. by rewrite Htr, <-(assoc_L (++)).
  - intros e He.
    rewrite update_repository_list_unfold, bool_decide_eq_false_2 by done.
    unfold mbind, M_bind. by rewrite Hread, He.
  - intros x Hx Hempty.
    rewrite update_repository_list_unfold, bool_decide_eq_false_2 by done.
    unfold mbind, M_bind. rewrite Hread, Hx, Hempty. by rewrite bool_decide_eq_true_2.
Qed.

Lemma update_repository_list_missing_file_witness :
  sync_run [] 1 (Toy.start Toy.empty)
  = (Val (),
     {| session := {| apk_repository_list_updated := ["native"];
                      apk_min_version_checked := [] |};
        ext := Toy.empty;
        trace := [EvRunRoot ["mkdir"; "-p"; "/w/chroot_native/etc/apk"]] |}).
Proof.
  destruct (update_repository_list_missing_file (Toy.host [] id) 0 Toy.args "native"
              false (Toy.start Toy.empty)) as (_ & _ & Hempty).
  - apply not_elem_of_nil.
  - reflexivity.
  - unfold sync_run. by rewrite (Hempty Toy.empty eq_refl eq_refl).
Defined.

(** ** More on the install necessity evaluator *)

(** X10: with the builds disabled ([pmbootstrap install] without
    [build_pkgs_on_install]) the evaluator only reads: it never calls the
    builder and never calls itself, so that one round of fuel is enough; the
    world and the session cache are as before and the trace gains the line
    about a newer installed version at most.  For an installed package that
    has no index entry it raises the error about the missing binary
    package. *)
Theorem install_is_necessary_build_disabled (h : Host) (fuel : nat) (args : Args)
    (build : bool) (arch package : string) (packages_installed : gmap string Entry)
    (s s' : St (Ext h)) (r : res (option bool)) :
  build_disabled args = true →
  install_is_necessary h (S fuel) args build arch package packages_installed s
  = (r, s') →
  r ≠ NoFuel
  ∧ session s' = session s ∧ ext s' = ext s
  ∧ (trace s' = trace s ∨ ∃ msg, trace s' = trace s ++ [EvLog Info msg])
  ∧ (Py.startswith package "!" = false →
     is_Some (packages_installed !! package) →
     apkindex_package h (ext s) package arch = None →
     r = Exn (RuntimeError (msg_no_binary package arch))).
Proof.
  intros Hdis. cbn [install_is_necessary]. rewrite Hdis, andb_false_r.
  destruct (Py.startswith package "!") eqn:Hbang.
  { munfold. intros [= <- <-]. repeat split; eauto. done. }
  unfold py_float. munfold. cbn.
  destruct (packages_installed !! package) as [data_installed|] eqn:Hin.
  2: { intros [= <- <-]. repeat split; eauto. by intros _ [? [=]]. }
  destruct (apkindex_package h (ext s) package arch) as [data_repo|] eqn:Hrepo.
  2: { intros [= <- <-]. repeat split; eauto. }
  intros Hrun.
  assert (Hgoal : r ≠ NoFuel ∧ session s' = session s ∧ ext s' = ext s
                  ∧ (trace s' = trace s ∨ ∃ msg, trace s' = trace s ++ [EvLog Info msg])).
  { revert Hrun. repeat (case_match; simplify_eq); intros Hrun; simplify_eq; cbn;
      eauto 10. }
  destruct Hgoal as (? & ? & ? & ?). repeat split; try done.
Qed.

Lemma install_is_necessary_build_disabled_witness :
  install_is_necessary (Toy.host [] id) 1 args_no_build true "x86_64" "foo"
    (Toy.db (world_unbuilt None)) (Toy.start (world_unbuilt None))
  = (Exn (RuntimeError (msg_no_binary "foo" "x86_64")), Toy.start (world_unbuilt None)).
Proof.
  destruct (install_is_necessary (Toy.host [] id) 1 args_no_build true "x86_64" "foo"
              (Toy.db (world_unbuilt None)) (Toy.start (world_unbuilt None)))
    as [r s'] eqn:Hrun.
  destruct (install_is_necessary_build_disabled (Toy.host [] id) 0 args_no_build true
              "x86_64" "foo" (Toy.db (world_unbuilt None))
              (Toy.start (world_unbuilt None)) s' r eq_refl Hrun)
    as (_ & _ & _ & _ & Herr).
  rewrite (Herr eq_refl ltac:(by eexists) eq_refl). by vm_compute in Hrun; simplify_eq.
Defined.

(** ** The filter of [install] *)

(** X11: the filter adds nothing of its own.  Whatever the collaborators
    do, the add-set it returns is what it was given followed by a
    subsequence of the plain names of the dependency closure, in their order,
    and the remove-set is what it was given followed by a subsequence of the
    removals of the closure with their marks stripped. *)
Theorem filter_outdated_sublist (h : Host) (fuel : nat) (args : Args) (build : bool)
    (arch : string) (packages_installed : gmap string Entry)
    (packages_with_depends toadd todel toadd' todel' : list string)
    (s s' : St (Ext h)) :
  filter_outdated h fuel args build arch packages_installed packages_with_depends
    toadd todel s = (Val (toadd', todel'), s') →
  ∃ added removed,
    toadd' = toadd ++ added ∧ todel' = todel ++ removed
    ∧ added `sublist_of` plain_names packages_with_depends
    ∧ removed `sublist_of` removal_names packages_with_depends.
Proof.
  revert toadd todel s.
  induction packages_with_depends as [|package rest IH]; intros toadd todel s.
  - intros [= <- <-]. exists [], []. by rewrite !app_nil_r.
  - cbn [filter_outdated]. intros Hrun.
    apply bind_inv_val in Hrun as (necessary & s1 & _ & Hrun).
    unfold plain_names, removal_names. cbn [List.filter].
    destruct (negb (truthy necessary)).
    + destruct (IH _ _ _ Hrun) as (added & removed & -> & -> & Hadd & Hdel).
      exists added, removed. repeat split; [|].
      * destruct (Py.startswith package "!"); cbn; [done | by apply sublist_cons].
      * destruct (Py.startswith package "!"); cbn; [by apply sublist_cons | done].
    + destruct (Py.startswith package "!") eqn:Hbang; cbn.
      * destruct (IH _ _ _ Hrun) as (added & removed & -> & -> & Hadd & Hdel).
        exists added, (Py.lstrip "!" package :: removed).
        rewrite <-!(assoc_L (++)). repeat split; [done|]. by apply sublist_skip.
      * destruct (IH _ _ _ Hrun) as (added & removed & -> & -> & Hadd & Hdel).
        exists (package :: added), removed.
        rewrite <-!(assoc_L (++)). repeat split; [|done]. by apply sublist_skip.
Qed.

Lemma filter_outdated_sublist_witness :
  filter_run ["a"; "b"; "!b"; "!c"; "c"]
  = (Val (["a"; "c"], ["b"]), Toy.start world_b_current)
  ∧ ["a"; "c"] `sublist_of` plain_names ["a"; "b"; "!b"; "!c"; "c"]
  ∧ ["b"] `sublist_of` removal_names ["a"; "b"; "!b"; "!c"; "c"].
Proof.
  assert (Hrun : filter_run ["a"; "b"; "!b"; "!c"; "c"]
                 = (Val (["a"; "c"], ["b"]), Toy.start world_b_current))
    by by vm_compute.
  split; [exact Hrun|].
  destruct (filter_outdated_sublist (Toy.host [] id) 1 Toy.args false "x86_64"
              (Toy.db world_b_current) ["a"; "b"; "!b"; "!c"; "c"] [] [] ["a"; "c"] ["b"]
              (Toy.start world_b_current) (Toy.start world_b_current) Hrun)
    as (added & removed & Hadd & Hdel & Hsub_add & Hsub_del).
  cbn in Hadd, Hdel. subst added removed. by split.
Defined.

(** X12: with no build to make, a closure none of whose names is in the
    installed snapshot goes to the add-set whole: every plain name is added,
    in order, and no removal is kept, since there is nothing to remove; the
    state is as before. *)
Theorem filter_outdated_none_installed (h : Host) (fuel : nat) (args : Args)
    (build : bool) (arch : string) (packages_installed : gmap string Entry)
    (packages_with_depends toadd todel : list string) (s : St (Ext h)) :
  build && negb (build_disabled args) = false →
  Forall (λ p, (if Py.startswith p "!" then Py.tail p else p) ∉ dom packages_installed)
    packages_with_depends →
  filter_outdated h (S fuel) args build arch packages_installed packages_with_depends
    toadd todel s
  = (Val (toadd ++ plain_names packages_with_depends, todel), s).
Proof.
  intros Hbuild Hall. revert toadd.
  induction Hall as [|package rest Hp _ IH]; intros toadd.
  - cbn. by rewrite app_nil_r.
  - cbn [filter_outdated install_is_necessary]. rewrite Hbuild.
    unfold plain_names. cbn [List.filter].
    destruct (Py.startswith package "!") eqn:Hbang.
    + munfold. cbn. rewrite bool_decide_eq_false_2 by done. cbn. apply IH.
    + munfold. cbn. rewrite (proj1 (not_elem_of_dom _ _) Hp). cbn.
      rewrite IH. by rewrite <-(assoc_L (++)).
Qed.

Lemma filter_outdated_none_installed_witness :
  filter_outdated (Toy.host [] id) 1 Toy.args false "x86_64" ∅
    ["a"; "!b"; "c"] [] [] (Toy.start Toy.empty)
  = (Val (["a"; "c"], []), Toy.start Toy.empty).
Proof.
  apply (filter_outdated_none_installed (Toy.host [] id) 0 Toy.args false "x86_64" ∅
           ["a"; "!b"; "c"] [] [] (Toy.start Toy.empty)).
  - reflexivity.
  - repeat constructor; apply not_elem_of_empty.
Defined.

(** ** The commands of [install] *)

Lemma run_commands_later (h : Host) args suffix i (commands : list (list string))
    (s s' : St (Ext h)) (r : res unit) :
  run_commands h args suffix (S i) commands s = (r, s') →
  ∃ k, trace s'
       = trace s
         ++ take k ((λ command,
                       EvChrootRoot (["apk"; "--no-progress"] ++ network_flag args
                                     ++ command) suffix) <$> commands)
       ∧ reached r k (length commands).
Proof.
  revert i s. induction commands as [|command rest IH]; intros i s.
  - intros [= <- <-]. exists 0. by rewrite app_nil_r.
  - cbn [run_commands]. cbn [Nat.eqb].
    unfold mbind, M_bind, call_world.
    assert (Hcmd : (if offline args then ["--no-network"] ++ command else command)
                   = network_flag args ++ command)
      by (unfold network_flag; by destruct (offline args)).
    rewrite Hcmd.
    destruct (chroot_root h _ _ _ _) as [e|[c x]].
    + intros [= <- <-]. exists 1. split; [done|]. cbn. lia.
    + intros Hrun. destruct (IH _ _ Hrun) as (k & Htr & Hk).
      exists (S k). split; [cbn in Htr |- *; by rewrite Htr, <-(assoc_L (++))|].
      destruct r; cbn in Hk |- *; [by f_equal | lia | done].
Qed.

(** X13: the commands are run in their order, each one once, the first
    through [apk_with_progress] and the others through [pmb.chroot.root]
    with [--no-progress], each with [--no-network] first when [offline] is
    set.  The loop stops at the first command that raises: the commands
    before it have been run and are not undone, the commands after it are
    not run. *)
Theorem run_commands_in_order (h : Host) (args : Args) (suffix : string)
    (commands : list (list string)) (s s' : St (Ext h)) (r : res unit) :
  run_commands h args suffix 0 commands s = (r, s') →
  ∃ k, trace s' = trace s ++ take k (command_events args suffix commands)
       ∧ reached r k (length commands).
Proof.
  destruct commands as [|first others].
  - intros [= <- <-]. exists 0. by rewrite app_nil_r.
  - cbn [run_commands command_events]. cbn [Nat.eqb].
    unfold mbind, M_bind, call_world.
    assert (Hcmd : (if offline args then ["--no-network"] ++ first else first)
                   = network_flag args ++ first)
      by (unfold network_flag; by destruct (offline args)).
    rewrite Hcmd.
    destruct (apk_with_progress h _ _ _ _) as [e|[c x]].
    + intros [= <- <-]. exists 1. split; [done|]. cbn. lia.
    + intros Hrun. destruct (run_commands_later _ _ _ _ _ _ _ _ Hrun) as (k & Htr & Hk).
      exists (S k). split; [cbn in Htr |- *; by rewrite Htr, <-(assoc_L (++))|].
      destruct r; cbn in Hk |- *; [by f_equal | lia | done].
Qed.

Lemma run_commands_in_order_witness :
  trace (run_commands (Toy.host [] id) args_no_build "native" 0
           [["add"; "a"]; ["del"; "b"]] (Toy.start Toy.empty)).2
  = [EvApkProgress ["apk"; "--no-network"; "add"; "a"] "native";
     EvChrootRoot ["apk"; "--no-progress"; "--no-network"; "del"; "b"] "native"].
Proof.
  destruct (run_commands (Toy.host [] id) args_no_build "native" 0
              [["add"; "a"]; ["del"; "b"]] (Toy.start Toy.empty)) as [r s'] eqn:Hrun.
  destruct (run_commands_in_order _ _ _ _ _ _ _ Hrun) as (k & Htr & Hk).
  cbn [snd]. rewrite Htr. vm_compute in Hrun. simplify_eq. cbn in Hk. by subst k.
Defined.

(** X14: the sequence of commands always holds the add command over the
    requested packages; it has one command at least and four at most; a
    removal command, when the remove-set is not empty, is the last one; and an
    empty add-set, as for a request of removals only, never makes the virtual
    package. *)
Theorem compose_commands_shape (requested resolved todel : list string) :
  let commands := compose_commands requested resolved todel in
  (["add"] ++ requested) ∈ commands
  ∧ 1 ≤ length commands ≤ 4
  ∧ (todel ≠ [] → last commands = Some (["del"] ++ todel))
  ∧ (resolved = [] →
     commands = [["add"] ++ requested]
                ++ (if bool_decide (todel ≠ []) then [["del"] ++ todel] else [])).
Proof.
  cbv zeta. rewrite compose_commands_cases. unfold add_virtual, add_plain.
  split; [|split; [|split]].
  - case_bool_decide; apply elem_of_app; left; [by right; left | by left].
  - repeat case_bool_decide; cbn; lia.
  - intros Hdel. rewrite (bool_decide_eq_true_2 _ Hdel). by rewrite last_snoc.
  - intros ->. rewrite bool_decide_eq_false_2; [done|]. by intros [? _].
Qed.

(** ** The planner *)

Lemma install_prepare_grows (h : Host) fuel args packages suffix build :
  grows no_apk (install_prepare h fuel args packages suffix build).
Proof.
  unfold install_prepare.
  apply grows_bind; [apply check_min_version_grows | intros _].
  apply grows_bind; [by apply grows_call_world | intros _].
  apply grows_bind; [apply grows_from_sum | intros arch].
  apply grows_bind; [apply grows_get_ext | intros x].
  apply grows_bind; [apply grows_from_sum | intros closure].
  apply grows_bind; [unfold installed; grows_tac | intros db].
  apply grows_bind; [apply filter_outdated_grows | intros parts].
  apply grows_ret.
Qed.

(** X15: [install] runs apk only after a preparation that returned with
    something to add or to remove.  When the add-set and the remove-set are
    both empty it returns at once, with no install message; when the version
    gate, the chroot, the resolver or the filter raises, it raises the same;
    in each case it ends in the state the preparation left, whose trace has
    no call of apk by [install]. *)
Theorem install_nothing_to_do (h : Host) (fuel : nat) (args : Args)
    (packages : list string) (suffix : string) (build : bool) (s s1 : St (Ext h))
    (r : res (string * gmap string Entry * (list string * list string))) :
  install_prepare h fuel args packages suffix build s = (r, s1) →
  (∃ evs, trace s1 = trace s ++ evs ∧ Forall no_apk evs)
  ∧ match r with
    | Val (_, _, ([], [])) => install h fuel args packages suffix build s = (Val (), s1)
    | Val _ => True
    | Exn e => install h fuel args packages suffix build s = (Exn e, s1)
    | NoFuel => install h fuel args packages suffix build s = (NoFuel, s1)
    end.
Proof.
  intros Hprep. split; [exact (install_prepare_grows _ _ _ _ _ _ _ _ _ Hprep)|].
  unfold install, mbind, M_bind. rewrite Hprep.
  destruct r as [[[arch db] [[|p toadd] [|q todel]]]|e|]; done.
Qed.

Lemma install_nothing_to_do_witness :
  install (Toy.host [] id) 1 Toy.args ["b"] "native" true (Toy.start world_b_current)
  = (Val (),
     (install_prepare (Toy.host [] id) 1 Toy.args ["b"] "native" true
        (Toy.start world_b_current)).2)
  ∧ trace (install (Toy.host [] id) 1 Toy.args ["b"] "native" true
             (Toy.start world_b_current)).2
    = [EvLog Debug "NOTE: Skipped apk version check for chroot 'native', because it is not installed yet!";
       EvChrootInit "native";
       EvBuild "b" "x86_64" false].
Proof.
  split; [|by vm_compute].
  destruct (install_nothing_to_do (Toy.host [] id) 1 Toy.args ["b"] "native" true
              (Toy.start world_b_current)
              (install_prepare (Toy.host [] id) 1 Toy.args ["b"] "native" true
                 (Toy.start world_b_current)).2
              (Val ("x86_64", Toy.db world_b_current, ([], []))))
    as [_ Hrun]; [by vm_compute | exact Hrun].
Defined.

Lemma sanitize_val_inv (h : Host) (packages : list string) (s s' : St (Ext h)) :
  sanitize h packages s = (Val (), s') →
  s' = s ∧ Forall (λ p, Py.startswith p "-" = false) packages.
Proof.
  induction packages as [|p packages IH]; cbn [sanitize].
  - by intros [= <-].
  - destruct (Py.startswith p "-") eqn:Hp; [done|].
    intros Hrun. destruct (IH Hrun) as [-> Hall]. by split; [|constructor].
Qed.

(** X16: what the check does cover.  When the check of the add-set and
    the remove-set returns, it has changed nothing, and no token of the
    remove-set and of the add-set as the path resolver rewrites it begins with
    a dash: a name that is kept has passed the check and a path that replaces
    a name begins with a slash. *)
Theorem install_checked_tokens (h : Host) (args : Args) (suffix arch : string)
    (x : Ext h) (packages_toadd packages_todel resolved_toadd : list string)
    (s s' : St (Ext h)) :
  sanitize h (packages_toadd ++ packages_todel) s = (Val (), s') →
  Forall2 (resolved h args suffix arch x) packages_toadd resolved_toadd →
  s' = s
  ∧ Forall (λ p, Py.startswith p "-" = false) (resolved_toadd ++ packages_todel).
Proof.
  intros Hcheck Hres. destruct (sanitize_val_inv _ _ _ _ Hcheck) as [-> Hall].
  split; [done|]. by eapply checked_tokens_no_dash.
Qed.

Lemma install_checked_tokens_witness :
  Forall (λ p, Py.startswith p "-" = false)
    (["/mnt/pmbootstrap-packages/x86_64/hello-1.0-r0.apk"; "busybox"] ++ ["old"]).
Proof.
  refine (proj2 (install_checked_tokens (Toy.host [] id) Toy.args "native" "x86_64"
                   world_aports ["hello"; "busybox"] ["old"] _
                   (Toy.start world_aports) (Toy.start world_aports) eq_refl _)).
  constructor; [|constructor; [|constructor]].
  - split; [|by intros []].
    intros _. exists (Toy.entry "hello" "1.0-r0" "100"). by split.
  - split; [by intros [=] | done].
Defined.

(** ** The order of the steps *)

(** X17: a build that is allowed comes first.  For a package to install,
    with the build flag set and the builds not disabled, the first thing the
    evaluator does is the call of the builder, not forced, for that package
    and architecture: before the installed snapshot and the index are looked
    at, and also when the package is not installed. *)
Theorem install_is_necessary_builds_first (h : Host) (fuel : nat) (args : Args)
    (arch package : string) (packages_installed : gmap string Entry)
    (s s' : St (Ext h)) (r : res (option bool)) :
  Py.startswith package "!" = false →
  build_disabled args = false →
  install_is_necessary h (S fuel) args true arch package packages_installed s
  = (r, s') →
  ∃ evs, trace s' = trace s ++ [EvBuild package arch false] ++ evs.
Proof.
  intros Hbang Hdis. cbn [install_is_necessary]. rewrite Hbang, Hdis. cbn [andb negb].
  unfold mbind at 1, M_bind at 1, build_package_call at 1, call_world.
  destruct (build_package h (session s) (ext s) package arch false) as [e|[c x]].
  { intros [= <- <-]. exists []. by rewrite app_nil_r. }
  intros Hrun.
  match type of Hrun with
  | ?K _ = _ => assert (Hg : grows no_apk K)
  end.
  { unfold build_package_call, logging, py_float. grows_tac.
    apply install_is_necessary_grows. }
  destruct (Hg _ _ _ Hrun) as (evs & Htr & _). exists evs.
  cbn in Htr. by rewrite Htr, <-(assoc_L (++)).
Qed.

Lemma install_is_necessary_builds_first_witness :
  install_is_necessary (Toy.host [] id) 1 Toy.args true "x86_64" "a" ∅
    (Toy.start Toy.empty)
  = (Val (Some true),
     mkSt (session (Toy.start Toy.empty)) Toy.empty [EvBuild "a" "x86_64" false]).
Proof.
  destruct (install_is_necessary (Toy.host [] id) 1 Toy.args true "x86_64" "a" ∅
              (Toy.start Toy.empty)) as [r s'] eqn:Hrun.
  destruct (install_is_necessary_builds_first (Toy.host [] id) 0 Toy.args "x86_64" "a"
              ∅ (Toy.start Toy.empty) s' r eq_refl eq_refl Hrun) as [evs Htr].
  vm_compute in Hrun. by simplify_eq.
Defined.

Section GateOrder.
Context (h : Host).

Lemma install_is_necessary_no_gate fuel args build arch package
    (packages_installed : gmap string Entry) :
  grows no_gate (install_is_necessary h fuel args build arch package packages_installed).
Proof.
  induction fuel as [|fuel IH]; cbn [install_is_necessary].
  - apply grows_out_of_fuel.
  - unfold build_package_call, logging, py_float. grows_tac. apply IH.
Qed.

Lemma filter_outdated_no_gate fuel args build arch
    (packages_installed : gmap string Entry) packages toadd todel :
  grows no_gate
    (filter_outdated h fuel args build arch packages_installed packages toadd todel).
Proof.
  revert toadd todel.
  induction packages as [|package packages IH]; intros toadd todel;
    cbn [filter_outdated].
  - apply grows_ret.
  - apply grows_bind; [apply install_is_necessary_no_gate | intros necessary].
    repeat case_match; apply IH.
Qed.

Lemma replace_loop_no_gate args packages suffix arch ret :
  grows no_gate (replace_loop h args packages suffix arch ret).
Proof.
  revert ret. induction packages as [|package packages IH]; intros ret;
    cbn [replace_loop].
  - apply grows_ret.
  - unfold os_path_exists. grows_tac; apply IH.
Qed.

Lemma sanitize_no_gate packages : grows no_gate (sanitize h packages).
Proof.
  induction packages as [|package packages IH]; cbn [sanitize]; [apply grows_ret|].
  case_match; [apply grows_raise | apply IH].
Qed.

Lemma run_commands_no_gate args suffix i commands :
  grows no_gate (run_commands h args suffix i commands).
Proof.
  revert i. induction commands as [|command commands IH]; intros i;
    cbn [run_commands].
  - apply grows_ret.
  - apply grows_bind; [|intros _; apply IH]. by case_match; apply grows_call_world.
Qed.

End GateOrder.

Lemma bind_assoc {E A B C} (m : M E A) (f : A → M E B) (g : B → M E C) (s : St E) :
  ((m ≫= f) ≫= g) s = (m ≫= (λ a, f a ≫= g)) s.
Proof. unfold mbind, M_bind. by destruct (m s) as [[a|e|] s1]. Qed.

(** X18: in [install] the version gate comes before the chroot is
    initialized, and it is not run again.  In a chroot that has no apk yet
    the check is therefore skipped for the whole call: the call logs the
    note, initializes the chroot, and whatever it does afterwards it never
    hands a version to [check_outdated]. *)
Theorem install_gate_before_init (h : Host) (fuel : nat) (args : Args)
    (packages : list string) (suffix : string) (build : bool) (s s' : St (Ext h))
    (r : res unit) :
  suffix ∉ apk_min_version_checked (session s) →
  path_exists h (ext s) (apk_binary args suffix) = false →
  install h fuel args packages suffix build s = (r, s') →
  ∃ evs,
    trace s'
    = trace s
      ++ [EvLog Debug ("NOTE: Skipped apk version check for chroot '" +:+ suffix
                       +:+ "', because it is not installed yet!");
          EvChrootInit suffix]
      ++ evs
    ∧ Forall no_gate evs.
Proof.
  intros Hcache Hex. unfold install, install_prepare.
  rewrite bind_assoc. erewrite bind_val.
  2: { rewrite check_min_version_unfold, bool_decide_eq_false_2, Hex by done.
       reflexivity. }
  rewrite bind_assoc. unfold mbind at 1, M_bind at 1, call_world at 1. cbn [session ext trace].
  destruct (chroot_init h (session s) (ext s) suffix) as [e|[c x]].
  { intros [= <- <-]. exists []. cbn. by rewrite <-(assoc_L (++)). }
  intros Hrun.
  match type of Hrun with
  | ?K _ = _ => assert (Hg : grows no_gate K)
  end.
  { apply grows_bind.
    - apply grows_bind; [apply grows_from_sum | intros arch].
      apply grows_bind; [apply grows_get_ext | intros x0].
      apply grows_bind; [apply grows_from_sum | intros closure].
      apply grows_bind; [unfold installed; grows_tac | intros db].
      apply grows_bind; [apply filter_outdated_no_gate | intros parts].
      apply grows_ret.
    - intros [[arch db] [toadd todel]].
      destruct (is_empty toadd && is_empty todel); [apply grows_ret|].
      apply grows_bind; [apply sanitize_no_gate | intros _].
      apply grows_bind; [by apply grows_emit | intros _].
      apply grows_bind; [apply replace_loop_no_gate | intros resolved].
      apply run_commands_no_gate. }
  destruct (Hg _ _ _ Hrun) as (evs & Htr & Hevs). exists evs. split; [|done].
  cbn in Htr. by rewrite Htr, <-!(assoc_L (++)).
Qed.

Lemma install_gate_before_init_witness :
  trace (install (Toy.host [] id) 1 Toy.args ["a"] "native" false
           (Toy.start Toy.empty)).2
  = [EvLog Debug "NOTE: Skipped apk version check for chroot 'native', because it is not installed yet!";
     EvChrootInit "native";
     EvLog Info "(native) install a";
     EvApkProgress ["apk"; "add"; "a"] "native"].
Proof.
  destruct (install (Toy.host [] id) 1 Toy.args ["a"] "native" false
              (Toy.start Toy.empty)) as [r s'] eqn:Hrun.
  destruct (install_gate_before_init (Toy.host [] id) 1 Toy.args ["a"] "native" false
              (Toy.start Toy.empty) s' r (not_elem_of_nil _) eq_refl Hrun)
    as (evs & Htr & _).
  vm_compute in Hrun. by simplify_eq.
Defined.
